(** * static_transform_publisher: the reconfigurable transform sender

    A shallow embedding of [TransformSender] from
    [tf/src/static_transform_publisher.cpp]: the two constructors, [send],
    [reconfRPYLimits], the dynamic-reconfigure callback [reconfCallback] and
    the unit conversions [toDegrees] / [toRadians].

    C++ [double] is IEEE-754 binary64, modelled by the kernel's primitive
    floats, so that every comparison of the source ([==], [<], [>]) keeps its
    behaviour on zeros, infinities and NaN.  [uint32_t] and [int] are [Z].
    The mutable members of the object and the in/out [config] argument are
    threaded explicitly; log macros append to a list of entries. *)

From Stdlib Require Import Floats ZArith String List Bool Lia.
From Stdlib Require Import DecimalString.
Import ListNotations.

Local Open Scope float_scope.
Set Warnings "-inexact-float".

(** ** Constants of the C headers *)

(** [M_PI] of <cmath>: the binary64 value nearest to pi. *)
Definition M_PI : float := 0x1.921fb54442d18p+1.

(** [DBL_EPSILON] of <cfloat>: 2^-52. *)
Definition DBL_EPSILON : float := 0x1p-52.

(** ** tf linear algebra types *)

Module Vector3.
Record t : Set := mk { x : float; y : float; z : float }.
End Vector3.

Module Quaternion.
Record t : Set := mk { x : float; y : float; z : float; w : float }.

(** Modelled from the spec: [tf::Quaternion::length2] is declared in
    tf/LinearMath/Quaternion.h, which is not part of the sources at hand.
    The spec calls it the squared norm of (x, y, z, w). *)
Definition length2 (q : t) : float :=
  x q * x q + y q * y q + z q * z q + w q * w q.

Definition length (q : t) : float := PrimFloat.sqrt (length2 q).

(** Modelled from the spec: [tf::Quaternion::normalize] (same header):
    every component is scaled by the reciprocal of the norm. *)
Definition normalize (q : t) : t :=
  let s := 1 / length q in
  mk (x q * s) (y q * s) (z q * s) (w q * s).
End Quaternion.

(** [ros::Time], as a count of nanoseconds. *)
Definition Time : Set := Z.

(** Modelled from the spec: [tf::StampedTransform] (tf/transform_datatypes.h,
    not part of the sources at hand).  The spec's Transform holds a
    translation, a rotation quaternion, a timestamp and the two frame
    identifiers; [getRotation] and [getOrigin] read back the components the
    transform was built from. *)
Module StampedTransform.
Record t : Set := mk {
  getRotation : Quaternion.t;
  getOrigin : Vector3.t;
  stamp_ : Time;
  frame_id_ : string;
  child_frame_id_ : string
}.

Definition set_stamp (tr : t) (time : Time) : t :=
  mk (getRotation tr) (getOrigin tr) time (frame_id_ tr) (child_frame_id_ tr).
End StampedTransform.

(** ** The generated configuration type

    [tf::TransformSenderConfig] is generated from the package's .cfg file;
    these are the fields the callback reads and writes. *)
Module Config.
Record t : Set := mk {
  x : float; y : float; z : float;
  roll : float; pitch : float; yaw : float;
  qx : float; qy : float; qz : float; qw : float;
  use_quaternion : bool;
  angle_units : Z
}.

Definition set_xyz (c : t) (v : Vector3.t) : t :=
  mk (Vector3.x v) (Vector3.y v) (Vector3.z v)
     (roll c) (pitch c) (yaw c) (qx c) (qy c) (qz c) (qw c)
     (use_quaternion c) (angle_units c).

Definition set_rpy (c : t) (rpy : float * float * float) : t :=
  let '(r, p, yw) := rpy in
  mk (x c) (y c) (z c) r p yw (qx c) (qy c) (qz c) (qw c)
     (use_quaternion c) (angle_units c).

Definition set_quat (c : t) (q : Quaternion.t) : t :=
  mk (x c) (y c) (z c) (roll c) (pitch c) (yaw c)
     (Quaternion.x q) (Quaternion.y q) (Quaternion.z q) (Quaternion.w q)
     (use_quaternion c) (angle_units c).

Definition set_use_quaternion (c : t) (b : bool) : t :=
  mk (x c) (y c) (z c) (roll c) (pitch c) (yaw c)
     (qx c) (qy c) (qz c) (qw c) b (angle_units c).

Definition set_angle_units (c : t) (u : Z) : t :=
  mk (x c) (y c) (z c) (roll c) (pitch c) (yaw c)
     (qx c) (qy c) (qz c) (qw c) (use_quaternion c) u.

Definition xyz (c : t) : Vector3.t := Vector3.mk (x c) (y c) (z c).
Definition rpy (c : t) : float * float * float := (roll c, pitch c, yaw c).
Definition quat (c : t) : Quaternion.t :=
  Quaternion.mk (qx c) (qy c) (qz c) (qw c).
End Config.

(** The part of [dynamic_reconfigure::Server] the class touches: the
    published minimum and maximum configurations. *)
Module Server.
Record t : Set := mk { getConfigMin : Config.t; getConfigMax : Config.t }.
End Server.

(** ** Logging *)

Inductive Severity : Set := DEBUG | INFO | WARN | ERROR | FATAL.

Record LogEntry : Set := { severity : Severity; text : string }.

Definition ROS_INFO (s : string) : LogEntry := {| severity := INFO; text := s |}.
Definition ROS_WARN (s : string) : LogEntry := {| severity := WARN; text := s |}.
Definition ROS_ERROR (s : string) : LogEntry := {| severity := ERROR; text := s |}.

Definition show_int (n : Z) : string := NilZero.string_of_int (Z.to_int n).

(** ** The enumerations of the class *)

Definition CHANGE_NOTHING : Z := 0.
Definition CHANGE_XYZ : Z := Z.shiftl 1 0.
Definition CHANGE_RPY : Z := Z.shiftl 1 1.
Definition CHANGE_QUAT : Z := Z.shiftl 1 2.
Definition CHANGE_UNITS : Z := Z.shiftl 1 3.
Definition CHANGE_ALL : Z := 0xffffffff.

Definition USE_RADIANS : Z := 0.
Definition USE_DEGREES : Z := 1.

(** ** The object state *)

Record TransformSender : Set := {
  transform_ : StampedTransform.t;
  reconf_server_ : Server.t;
  angle_units_ : Z
}.

(** What one call of the callback leaves behind: the object, the in/out
    [config] argument, and the log lines in the order they were emitted. *)
Record Outcome : Set := {
  sender : TransformSender;
  snapshot : Config.t;
  log : list LogEntry
}.

Definition toDegrees (rpy : float * float * float) : float * float * float :=
  let '(r, p, y) := rpy in
  (r * 180 / M_PI, p * 180 / M_PI, y * 180 / M_PI).

Definition toRadians (rpy : float * float * float) : float * float * float :=
  let '(r, p, y) := rpy in
  (r / 180 * M_PI, p / 180 * M_PI, y / 180 * M_PI).

Definition send (s : TransformSender) (time : Time) : TransformSender :=
  {| transform_ := StampedTransform.set_stamp (transform_ s) time;
     reconf_server_ := reconf_server_ s;
     angle_units_ := angle_units_ s |}.

Definition set_rpy_limits (c : Config.t) (v : float) : Config.t :=
  Config.set_rpy c (v, v, v).

Definition reconfRPYLimits (s : TransformSender) : TransformSender :=
  let min_conf := Server.getConfigMin (reconf_server_ s) in
  let max_conf := Server.getConfigMax (reconf_server_ s) in
  let '(min_conf, max_conf) :=
    if (angle_units_ s =? USE_RADIANS)%Z
    then (set_rpy_limits min_conf (- M_PI), set_rpy_limits max_conf M_PI)
    else (set_rpy_limits min_conf (-180), set_rpy_limits max_conf 180) in
  {| transform_ := transform_ s;
     reconf_server_ := Server.mk min_conf max_conf;
     angle_units_ := angle_units_ s |}.

Section Callback.

(** The two Euler conversions of tf's LinearMath headers, which are not
    part of the sources at hand and rest on the C math library:
    [Quaternion::setRPY roll pitch yaw], and [Matrix3x3::getRPY] applied to
    the basis of a transform with the given rotation. *)
Variable setRPY : float -> float -> float -> Quaternion.t.
Variable getRPY : Quaternion.t -> float * float * float.

(** The default-constructed [reconf_server_] member. *)
Variable reconf_server_0 : Server.t.

Definition with_transform (s : TransformSender) (tr : StampedTransform.t)
  : TransformSender :=
  {| transform_ := tr;
     reconf_server_ := reconf_server_ s;
     angle_units_ := angle_units_ s |}.

Definition with_angle_units (s : TransformSender) (u : Z) : TransformSender :=
  {| transform_ := transform_ s;
     reconf_server_ := reconf_server_ s;
     angle_units_ := u |}.

(** [transform_.getBasis().getRPY(R, P, Y)] followed by the conversion the
    callback applies when the unit is degrees. *)
Definition displayRPY (s : TransformSender) : float * float * float :=
  let rpy := getRPY (StampedTransform.getRotation (transform_ s)) in
  if (angle_units_ s =? USE_DEGREES)%Z then toDegrees rpy else rpy.

(** Constructor taking yaw, pitch, roll. *)
Definition TransformSender_ypr (x y z yaw pitch roll : float) (time : Time)
    (frame_id child_frame_id : string) : TransformSender :=
  let q := setRPY roll pitch yaw in
  {| transform_ :=
       StampedTransform.mk q (Vector3.mk x y z) time frame_id child_frame_id;
     reconf_server_ := reconf_server_0;
     angle_units_ := 0 |}.

(** Constructor taking a quaternion. *)
Definition TransformSender_quat (x y z qx qy qz qw : float) (time : Time)
    (frame_id child_frame_id : string) : TransformSender :=
  {| transform_ :=
       StampedTransform.mk (Quaternion.mk qx qy qz qw) (Vector3.mk x y z)
                           time frame_id child_frame_id;
     reconf_server_ := reconf_server_0;
     angle_units_ := 0 |}.

(** [case CHANGE_ALL]. *)
Definition reconf_all (s : TransformSender) (config : Config.t) : Outcome :=
  let rpy := displayRPY s in
  let config := Config.set_xyz config (StampedTransform.getOrigin (transform_ s)) in
  let config := Config.set_rpy config rpy in
  let config := Config.set_quat config (StampedTransform.getRotation (transform_ s)) in
  {| sender := s; snapshot := config; log := [] |}.

(** [case CHANGE_XYZ]. *)
Definition reconf_xyz (s : TransformSender) (config : Config.t) (now : Time)
  : Outcome :=
  let tr := transform_ s in
  let tr' := StampedTransform.mk (StampedTransform.getRotation tr) (Config.xyz config)
               now (StampedTransform.frame_id_ tr) (StampedTransform.child_frame_id_ tr) in
  {| sender := with_transform s tr'; snapshot := config; log := [] |}.

(** [case CHANGE_RPY]. *)
Definition reconf_rpy (s : TransformSender) (config : Config.t) (now : Time)
  : Outcome :=
  let rpy := Config.rpy config in
  let '(R, P, Y) := if (angle_units_ s =? USE_DEGREES)%Z then toRadians rpy else rpy in
  let q := setRPY R P Y in
  let tr := transform_ s in
  let tr' := StampedTransform.mk q (StampedTransform.getOrigin tr)
               now (StampedTransform.frame_id_ tr) (StampedTransform.child_frame_id_ tr) in
  let s' := with_transform s tr' in
  let config := Config.set_quat config (StampedTransform.getRotation (transform_ s')) in
  {| sender := s'; snapshot := config; log := [] |}.

(** The validation at the head of [case CHANGE_QUAT]: the quaternion that
    will be applied, and what is logged on the way. *)
Definition check_quat (s : TransformSender) (q : Quaternion.t)
  : Quaternion.t * list LogEntry :=
  if Quaternion.length2 q =? 0 then
    (StampedTransform.getRotation (transform_ s),
     [ROS_ERROR "Reconfigure: quaternion length cannot be 0.0. Using previous value"])
  else if (1 + DBL_EPSILON <? Quaternion.length2 q)
          || (Quaternion.length2 q <? 1 - DBL_EPSILON) then
    (Quaternion.normalize q,
     [ROS_WARN "Reconfigure: quaternion is not normalized. Normalizing."])
  else (q, []).

(** [case CHANGE_QUAT]. *)
Definition reconf_quat (s : TransformSender) (config : Config.t) (now : Time)
  : Outcome :=
  let '(q, msgs) := check_quat s (Config.quat config) in
  let tr := transform_ s in
  let tr' := StampedTransform.mk q (StampedTransform.getOrigin tr)
               now (StampedTransform.frame_id_ tr) (StampedTransform.child_frame_id_ tr) in
  let s' := with_transform s tr' in
  let config := Config.set_quat config q in
  let config := Config.set_rpy config (displayRPY s') in
  let config := Config.set_use_quaternion config false in
  {| sender := s'; snapshot := config; log := msgs |}.

(** [case CHANGE_UNITS]. *)
Definition reconf_units (s : TransformSender) (config : Config.t) : Outcome :=
  if (angle_units_ s =? Config.angle_units config)%Z then
    {| sender := s; snapshot := config; log := [] |}
  else
    let s := with_angle_units s (Config.angle_units config) in
    let msgs := [ROS_INFO ("UNITS: " ++ show_int (angle_units_ s))] in
    let s := reconfRPYLimits s in
    let rpy := getRPY (StampedTransform.getRotation (transform_ s)) in
    let '(rpy, config) :=
      if (angle_units_ s =? USE_DEGREES)%Z
      then (toDegrees rpy, Config.set_angle_units config (angle_units_ s))
      else (rpy, config) in
    let config := Config.set_rpy config rpy in
    {| sender := s; snapshot := config; log := msgs |}.

(** The dynamic-reconfigure callback: one log line, then the [switch]. *)
Definition reconfCallback (s : TransformSender) (config : Config.t)
    (level : Z) (now : Time) : Outcome :=
  let r :=
    if (level =? CHANGE_ALL)%Z then reconf_all s config
    else if (level =? CHANGE_XYZ)%Z then reconf_xyz s config now
    else if (level =? CHANGE_RPY)%Z then reconf_rpy s config now
    else if (level =? CHANGE_QUAT)%Z then reconf_quat s config now
    else if (level =? CHANGE_UNITS)%Z then reconf_units s config
    else {| sender := s; snapshot := config; log := [] |} in
  {| sender := sender r;
     snapshot := snapshot r;
     log := ROS_INFO ("Level: " ++ show_int level) :: log r |}.

End Callback.

(** ** A reference instance of the Euler conversions

    Used to run the callback on concrete inputs; the theorems below hold for
    every [setRPY] and [getRPY]. *)
Module Ref.

(** Sum of [fuel] further terms of a power series whose consecutive terms
    differ by the factor [x2 / ((n+1)(n+2))]. *)
Fixpoint exp_series (fuel : nat) (x2 term n acc : float) : float :=
  match fuel with
  | O => acc
  | S fuel' =>
      let term' := term * x2 / ((n + 1) * (n + 2)) in
      exp_series fuel' x2 term' (n + 2) (acc + term')
  end.

Definition cos (a : float) : float := exp_series 20 (- (a * a)) 1 0 1.
Definition sin (a : float) : float := exp_series 20 (- (a * a)) a 1 a.

(** Sum of [fuel] further terms of the arctangent series. *)
Fixpoint atan_series (fuel : nat) (t2 pow n acc : float) : float :=
  match fuel with
  | O => acc
  | S fuel' =>
      let pow' := pow * t2 in
      atan_series fuel' t2 pow' (n + 2) (acc + pow' / (n + 2))
  end.

Definition halve (t : float) : float := t / (1 + PrimFloat.sqrt (1 + t * t)).

Definition atan_unit (t : float) : float :=
  let u := halve (halve t) in
  4 * atan_series 16 (- (u * u)) u 1 u.

Definition atan (t : float) : float :=
  if 1 <? abs t then
    (if 0 <? t then M_PI / 2 - atan_unit (1 / t)
     else - (M_PI / 2) - atan_unit (1 / t))
  else atan_unit t.

Definition atan2 (b a : float) : float :=
  if 0 <? a then atan (b / a)
  else if a <? 0 then
    (if 0 <=? b then atan (b / a) + M_PI else atan (b / a) - M_PI)
  else if 0 <? b then M_PI / 2
  else if b <? 0 then - (M_PI / 2)
  else 0.

Definition asin (a : float) : float := atan2 a (PrimFloat.sqrt (1 - a * a)).

(** Modelled from the spec: [tf::Quaternion::setRPY]
    (tf/LinearMath/Quaternion.h, not part of the sources at hand): roll
    about X, pitch about Y, yaw about Z, combined in roll-pitch-yaw order
    into a single quaternion. *)
Definition setRPY (roll pitch yaw : float) : Quaternion.t :=
  let cy := cos (yaw * 0.5) in let sy := sin (yaw * 0.5) in
  let cp := cos (pitch * 0.5) in let sp := sin (pitch * 0.5) in
  let cr := cos (roll * 0.5) in let sr := sin (roll * 0.5) in
  Quaternion.mk (sr * cp * cy - cr * sp * sy)
                (cr * sp * cy + sr * cp * sy)
                (cr * cp * sy - sr * sp * cy)
                (cr * cp * cy + sr * sp * sy).

(** Modelled from the spec: [tf::Matrix3x3::getRPY]
    (tf/LinearMath/Matrix3x3.h, not part of the sources at hand): the
    decomposition of a rotation into roll, pitch and yaw, the inverse of
    the composition above away from pitch = +-pi/2. *)
Definition getRPY (q : Quaternion.t) : float * float * float :=
  let s := 2 / Quaternion.length2 q in
  let '(qx, qy, qz, qw) :=
    (Quaternion.x q, Quaternion.y q, Quaternion.z q, Quaternion.w q) in
  (atan2 (s * (qw * qx + qy * qz)) (1 - s * (qx * qx + qy * qy)),
   asin (s * (qw * qy - qz * qx)),
   atan2 (s * (qw * qz + qx * qy)) (1 - s * (qy * qy + qz * qz))).

(** Modelled from the spec: the limits of a freshly constructed
    [dynamic_reconfigure::Server<tf::TransformSenderConfig>] come from the
    generated configuration type, which is not part of the sources at
    hand; the roll/pitch/yaw range is +-pi for the initial unit, radians. *)
Definition limits (v : float) : Config.t :=
  Config.mk v v v v v v v v v v false 0.

Definition reconf_server_0 : Server.t :=
  Server.mk (limits (- M_PI)) (limits M_PI).

Definition config0 : Config.t :=
  Config.mk 0 0 0 0 0 0 0 0 0 1 false 0.

End Ref.

(** ** Concrete objects and edits *)
Module Example.

(** [static_transform_publisher 1 2 3 0 0 0 1 world base 100]. *)
Definition identity_sender : TransformSender :=
  TransformSender_quat Ref.reconf_server_0 1 2 3 0 0 0 1 100%Z "world" "base".

(** [static_transform_publisher 0 0 0 0 0 0 0 world base 100]. *)
Definition zero_sender : TransformSender :=
  TransformSender_quat Ref.reconf_server_0 0 0 0 0 0 0 0 100%Z "world" "base".

(** [static_transform_publisher 0 0 0 yaw=pi/2 0 0 world base 100]. *)
Definition quarter_turn_sender : TransformSender :=
  TransformSender_ypr Ref.setRPY Ref.reconf_server_0
                      0 0 0 (M_PI / 2) 0 0 100%Z "world" "base".

(** A configuration whose quaternion fields are (qx, qy, qz, qw), with the
    use_quaternion box ticked. *)
Definition quat_edit (qx qy qz qw : float) : Config.t :=
  Config.mk 1 2 3 0 0 0 qx qy qz qw true 0.

Definition xyz_edit (x y z : float) : Config.t :=
  Config.mk x y z 0 0 0 0 0 0 1 true 0.

Definition units_edit (u : Z) : Config.t :=
  Config.mk 0 0 0 0 0 0 0 0 0 1 true u.

End Example.

(** ** Observations used in the statements *)

(** [a] and [b] differ by at most [tol]; false when either is NaN. *)
Definition near (tol a b : float) : bool := abs (a - b) <=? tol.

(** The squared norm of [q] is 1 up to [tol]. *)
Definition unit_within (tol : float) (q : Quaternion.t) : bool :=
  near tol (Quaternion.length2 q) 1.

(** The squared norm of [q] is within machine epsilon of 1: the quaternions
    [check_quat] applies as given. *)
Definition is_unit (q : Quaternion.t) : bool :=
  (1 - DBL_EPSILON <=? Quaternion.length2 q)
  && (Quaternion.length2 q <=? 1 + DBL_EPSILON).

(** Some line of the outcome's log has severity [sev]. *)
Definition surfaces (sev : Severity) (o : Outcome) : Prop :=
  exists e, In e (log o) /\ severity e = sev.

Definition rotation_of (s : TransformSender) : Quaternion.t :=
  StampedTransform.getRotation (transform_ s).

Definition origin_of (s : TransformSender) : Vector3.t :=
  StampedTransform.getOrigin (transform_ s).

(** The roll/pitch/yaw range published by the server, as (min, max). *)
Definition rpy_limits (s : TransformSender)
  : (float * float * float) * (float * float * float) :=
  (Config.rpy (Server.getConfigMin (reconf_server_ s)),
   Config.rpy (Server.getConfigMax (reconf_server_ s))).

(** ** Sequences of calls on the object *)

Inductive Call : Set :=
| Reconf (config : Config.t) (level : Z) (now : Time)
| Send (time : Time).

Section Runs.
Variable setRPY : float -> float -> float -> Quaternion.t.
Variable getRPY : Quaternion.t -> float * float * float.

Definition step (s : TransformSender) (c : Call) : TransformSender :=
  match c with
  | Reconf config level now => sender (reconfCallback setRPY getRPY s config level now)
  | Send time => send s time
  end.

Definition run (s : TransformSender) (calls : list Call) : TransformSender :=
  fold_left step calls s.
End Runs.

(** ** Log lines and the rebuilt transform *)

Definition rejected_msg : LogEntry :=
  ROS_ERROR "Reconfigure: quaternion length cannot be 0.0. Using previous value".

Definition normalized_msg : LogEntry :=
  ROS_WARN "Reconfigure: quaternion is not normalized. Normalizing.".

Definition level_msg (level : Z) : LogEntry :=
  ROS_INFO ("Level: " ++ show_int level).

(** The transform the three editing cases build: new rotation and origin,
    stamped [now], frames copied from the current transform. *)
Definition rebuilt (s : TransformSender) (q : Quaternion.t) (v : Vector3.t)
    (now : Time) : StampedTransform.t :=
  StampedTransform.mk q v now
    (StampedTransform.frame_id_ (transform_ s))
    (StampedTransform.child_frame_id_ (transform_ s)).

(** The roll, pitch and yaw [case CHANGE_RPY] hands to [setRPY]: the
    configuration's, converted to radians when the unit is degrees. *)
Definition edited_rpy (s : TransformSender) (config : Config.t)
  : float * float * float :=
  if (angle_units_ s =? USE_DEGREES)%Z
  then toRadians (Config.rpy config) else Config.rpy config.

(** The two frame identifiers of the object's transform. *)
Definition frames (s : TransformSender) : string * string :=
  (StampedTransform.frame_id_ (transform_ s),
   StampedTransform.child_frame_id_ (transform_ s)).

(** ** The program entry point *)

Definition ROS_DEBUG (s : string) : LogEntry := {| severity := DEBUG; text := s |}.
Definition ROS_FATAL (s : string) : LogEntry := {| severity := FATAL; text := s |}.

(** The newline character of the C string literals. *)
Definition nl : string := String (Ascii.ascii_of_nat 10) EmptyString.

(** What the last branch of [main] writes with [printf]. *)
Definition usage : list string :=
  [ ("A command line utility for manually sending a transform." ++ nl)%string;
    ("It will periodicaly republish the given transform. " ++ nl)%string;
    ("Usage: static_transform_publisher x y z yaw pitch roll frame_id child_frame_id  period(milliseconds) " ++ nl)%string;
    ("OR " ++ nl)%string;
    ("Usage: static_transform_publisher x y z qx qy qz qw frame_id child_frame_id  period(milliseconds) " ++ nl)%string;
    (nl ++ "This transform is the transform of the coordinate frame from frame_id into the coordinate frame " ++ nl)%string;
    ("of the child_frame_id.  " ++ nl)%string ].

Definition wrong_arguments_msg : LogEntry :=
  ROS_ERROR "static_transform_publisher exited due to not having the right number of arguments".

(** The [ROS_FATAL] line of [main], with its two [%s] filled in. *)
Definition same_frames_msg (a b : string) : LogEntry :=
  ROS_FATAL ("target_frame and source frame are the same (" ++ a ++ ", " ++ b
             ++ ") this cannot work").

(** The [ROS_DEBUG] line of the loop, with its two [%s] filled in. *)
Definition sending_msg (a b : string) : LogEntry :=
  ROS_DEBUG ("Sending transform from " ++ a ++ " with parent " ++ b ++ nl).

(** [ros::Duration], as a count of nanoseconds. *)
Definition Duration : Set := Z.

(** Where [main] stands when it reaches its loop, or what it returned
    without reaching it. *)
Inductive Startup : Set :=
| Started (tf_sender : TransformSender) (sleeper : Duration)
          (frame child : string) (log : list LogEntry)
| Returned (status : Z) (out : list string) (log : list LogEntry).

(** One turn of the loop as the environment drives it: the value of
    [ros::Time::now()] at the [send], and the reconfigure requests
    [ros::spinOnce] hands to the callback, each with the clock it reads. *)
Record Tick : Set := {
  tick_now : Time;
  tick_edits : list (Config.t * Z * Time)
}.

(** The object after the loop, the transforms handed to the broadcaster and
    the log lines, oldest first. *)
Record Spun : Set := {
  spun_sender : TransformSender;
  published : list StampedTransform.t;
  spun_log : list LogEntry
}.

Section Main.
Variable setRPY : float -> float -> float -> Quaternion.t.
Variable getRPY : Quaternion.t -> float * float * float.
Variable reconf_server_0 : Server.t.

(** [atof] of <cstdlib>. *)
Variable atof : string -> float.

(** The constructor [ros::Duration(double seconds)] and the sum of a
    [ros::Time] and a [ros::Duration], both of the ROS time library. *)
Variable Duration_of_sec : float -> Duration.
Variable time_plus : Time -> Duration -> Time.

(** [main] up to its [while] loop; [argv] holds [argc] strings.  The
    constructors end in [reconfInit], which registers the callback with the
    server; the calls the server makes are the ones [spinOnce] is given. *)
Definition startup (argv : list string) : Startup :=
  match argv with
  | [_; a1; a2; a3; a4; a5; a6; a7; a8; a9; a10] =>
      let sleeper := Duration_of_sec (atof a10 / 1000) in
      let log := if String.eqb a8 a9 then [same_frames_msg a8 a9] else [] in
      Started
        (TransformSender_quat reconf_server_0
           (atof a1) (atof a2) (atof a3)
           (atof a4) (atof a5) (atof a6) (atof a7)
           (time_plus 0%Z sleeper) a8 a9)
        sleeper a8 a9 log
  | [_; a1; a2; a3; a4; a5; a6; a7; a8; a9] =>
      let sleeper := Duration_of_sec (atof a9 / 1000) in
      let log := if String.eqb a7 a8 then [same_frames_msg a7 a8] else [] in
      Started
        (TransformSender_ypr setRPY reconf_server_0
           (atof a1) (atof a2) (atof a3)
           (atof a4) (atof a5) (atof a6)
           (time_plus 0%Z sleeper) a7 a8)
        sleeper a7 a8 log
  | _ => Returned (-1) usage [wrong_arguments_msg]
  end.

(** The callbacks one [ros::spinOnce] runs. *)
Definition spinOnce (s : TransformSender) (edits : list (Config.t * Z * Time))
  : TransformSender * list LogEntry :=
  fold_left
    (fun (acc : TransformSender * list LogEntry) (e : Config.t * Z * Time) =>
       let '(config, level, now) := e in
       let o := reconfCallback setRPY getRPY (fst acc) config level now in
       (sender o, snd acc ++ log o))
    edits (s, []).

(** One turn of the loop: [send], the debug line, [spinOnce]. *)
Definition turn (sleeper : Duration) (frame child : string)
    (st : Spun) (t : Tick) : Spun :=
  let s1 := send (spun_sender st) (time_plus (tick_now t) sleeper) in
  let '(s2, lg) := spinOnce s1 (tick_edits t) in
  {| spun_sender := s2;
     published := published st ++ [transform_ s1];
     spun_log := spun_log st ++ sending_msg frame child :: lg |}.

(** The loop, for as many turns as [node_.ok()] stays true. *)
Definition spin (s : TransformSender) (sleeper : Duration)
    (frame child : string) (ticks : list Tick) : Spun :=
  fold_left (turn sleeper frame child) ticks
            {| spun_sender := s; published := []; spun_log := [] |}.

(** [main]: exit status, standard output, log, and what was published. *)
Definition main (argv : list string) (ticks : list Tick)
  : Z * list string * list LogEntry * list StampedTransform.t :=
  match startup argv with
  | Started s sleeper frame child lg =>
      let r := spin s sleeper frame child ticks in
      (0%Z, [], lg ++ spun_log r, published r)
  | Returned status out lg => (status, out, lg, [])
  end.

End Main.

(** ** Further observations *)

(** A binary64 value that is a zero or a NaN. *)
Definition zero_or_nan (a : float) : bool :=
  match Prim2SF a with
  | S754_zero _ | S754_nan => true
  | _ => false
  end.

(** The fields of a configuration other than roll, pitch and yaw. *)
Definition beside_rpy (c : Config.t)
  : Vector3.t * Quaternion.t * bool * Z :=
  (Config.xyz c, Config.quat c, Config.use_quaternion c, Config.angle_units c).

(** The roll/pitch/yaw range [reconfRPYLimits] publishes for a unit. *)
Definition limits_for (u : Z) : (float * float * float) * (float * float * float) :=
  if (u =? USE_RADIANS)%Z
  then ((- M_PI, - M_PI, - M_PI), (M_PI, M_PI, M_PI))
  else ((-180, -180, -180), (180, 180, 180)).

(** The published roll/pitch/yaw range is the one of the active unit. *)
Definition limits_match_unit (s : TransformSender) : Prop :=
  rpy_limits s = limits_for (angle_units_ s).

(** A unit value of the enumeration. *)
Definition unit_in_enum (u : Z) : Prop := u = USE_RADIANS \/ u = USE_DEGREES.

(** A call that, if it is a reconfigure request, asks for a unit of the
    enumeration. *)
Definition asks_unit_in_enum (c : Call) : Prop :=
  match c with
  | Reconf config _ _ => unit_in_enum (Config.angle_units config)
  | Send _ => True
  end.

(** Both frame identifiers of a published transform are [frame], [child]. *)
Definition has_frames (frame child : string) (tr : StampedTransform.t) : Prop :=
  StampedTransform.frame_id_ tr = frame /\
  StampedTransform.child_frame_id_ tr = child.

(** ** A reference instance of the C and ROS library calls of [main]

    Used to run [main] on concrete command lines; the theorems about [main]
    hold for every [atof], [ros::Duration] constructor and time sum. *)
Module RefMain.

Definition digit_of (c : Ascii.ascii) : option float :=
  let n := Ascii.nat_of_ascii c in
  if (48 <=? n)%nat && (n <=? 57)%nat
  then Some (PrimFloat.of_uint63 (Uint63.of_Z (Z.of_nat (n - 48))))
  else None.

(** Digits after the decimal point; [scale] is the weight of the next one. *)
Fixpoint fraction (s : string) (scale acc : float) : float :=
  match s with
  | String c rest =>
      match digit_of c with
      | Some d => fraction rest (scale / 10) (acc + d * scale)
      | None => acc
      end
  | EmptyString => acc
  end.

(** Digits before the decimal point, then the fraction if there is one. *)
Fixpoint unsigned (s : string) (acc : float) : float :=
  match s with
  | String c rest =>
      match digit_of c with
      | Some d => unsigned rest (acc * 10 + d)
      | None =>
          if Ascii.eqb c (Ascii.ascii_of_nat 46) then fraction rest (1 / 10) acc else acc
      end
  | EmptyString => acc
  end.

(** Decimal numbers of the form [-]digits[.digits]; anything from the first
    other character on is ignored, as [atof] does. *)
Definition atof (s : string) : float :=
  match s with
  | String c rest =>
      if Ascii.eqb c (Ascii.ascii_of_nat 45) then - unsigned rest 0 else unsigned s 0
  | EmptyString => 0
  end.

(** Whole nanoseconds in a number of seconds, towards zero. *)
Definition Duration_of_sec (sec : float) : Duration :=
  match Prim2SF (sec * 1000000000) with
  | S754_finite sign m e =>
      let n := Z.shiftl (Z.pos m) e in if sign then (- n)%Z else n
  | _ => 0%Z
  end.

Definition time_plus (t : Time) (d : Duration) : Time := (t + d)%Z.

(** [static_transform_publisher 1 2 3 1.5 0 0 world base 100]. *)
Definition ypr_command : list string :=
  ["static_transform_publisher"; "1"; "2"; "3"; "1.5"; "0"; "0";
   "world"; "base"; "100"]%string.

(** [static_transform_publisher 1 2 3 0 0 0 1 world world 100]. *)
Definition same_frame_command : list string :=
  ["static_transform_publisher"; "1"; "2"; "3"; "0"; "0"; "0"; "1";
   "world"; "world"; "100"]%string.

(** Two turns of the loop, a translation edit arriving in the first. *)
Definition two_turns : list Tick :=
  [ {| tick_now := 1000%Z;
       tick_edits := [(Example.xyz_edit 4 5 6, CHANGE_XYZ, 1500%Z)] |};
    {| tick_now := 2000%Z; tick_edits := [] |} ].

End RefMain.

(** ** Comparisons of binary64 values *)

Lemma SFcompare_antisym (a b : spec_float) :
  SFcompare b a = option_map CompOpp (SFcompare a b).
Proof.
  destruct a as [sa | sa | | sa ma ea], b as [sb | sb | | sb mb eb];
    simpl; try reflexivity;
    try (destruct sa; reflexivity); try (destruct sb; reflexivity);
    try (destruct sa, sb; reflexivity).
  destruct sa, sb; try reflexivity;
    rewrite (Z.compare_antisym ea eb);
    destruct (ea ?= eb)%Z; simpl; try reflexivity;
    change (PosDef.Pos.compare_cont Eq mb ma) with (Pos.compare_cont Eq mb ma);
    rewrite (ZC4 mb ma); destruct (Pos.compare_cont Eq ma mb); reflexivity.
Qed.

Lemma leb_true_ltb_false (a b : float) :
  (a <=? b) = true -> (b <? a) = false.
Proof.
  rewrite FloatAxioms.leb_spec, FloatAxioms.ltb_spec. unfold SFleb, SFltb.
  rewrite (SFcompare_antisym (Prim2SF a) (Prim2SF b)).
  destruct (SFcompare (Prim2SF a) (Prim2SF b)) as [[ | | ] | ];
    simpl; congruence.
Qed.

Lemma eqb_zero_ltb_pos (a b : float) :
  (a =? 0) = true -> (0 <? b) = true -> (a <? b) = true.
Proof.
  rewrite FloatAxioms.eqb_spec, !FloatAxioms.ltb_spec. unfold SFeqb, SFltb.
  change (Prim2SF 0) with (S754_zero false).
  destruct (Prim2SF a) as [sa | [ | ] | | [ | ] ma ea]; simpl;
    intros Ha Hb; try discriminate Ha; exact Hb.
Qed.

(** ** The callback, case by case *)

Section Properties.

Variable setRPY : float -> float -> float -> Quaternion.t.
Variable getRPY : Quaternion.t -> float * float * float.

Local Abbreviation callback := (reconfCallback setRPY getRPY).

Lemma check_quat_zero s q :
  (Quaternion.length2 q =? 0) = true ->
  check_quat s q = (rotation_of s, [rejected_msg]).
Proof. intros H. unfold check_quat. rewrite H. reflexivity. Qed.

Lemma check_quat_off_unit s q :
  (Quaternion.length2 q =? 0) = false ->
  (1 + DBL_EPSILON <? Quaternion.length2 q)
    || (Quaternion.length2 q <? 1 - DBL_EPSILON) = true ->
  check_quat s q = (Quaternion.normalize q, [normalized_msg]).
Proof. intros H0 H1. unfold check_quat. rewrite H0, H1. reflexivity. Qed.

Lemma is_unit_nonzero q :
  is_unit q = true -> (Quaternion.length2 q =? 0) = false.
Proof.
  unfold is_unit. intros H. apply andb_prop in H. destruct H as [Hlo _].
  apply leb_true_ltb_false in Hlo.
  destruct (Quaternion.length2 q =? 0) eqn:E; [ | reflexivity ].
  rewrite (eqb_zero_ltb_pos _ (1 - DBL_EPSILON) E) in Hlo;
    [ discriminate | reflexivity ].
Qed.

Lemma check_quat_unit s q :
  is_unit q = true -> check_quat s q = (q, []).
Proof.
  intros H. unfold check_quat. rewrite (is_unit_nonzero q H).
  unfold is_unit in H. apply andb_prop in H. destruct H as [Hlo Hhi].
  rewrite (leb_true_ltb_false _ _ Hlo), (leb_true_ltb_false _ _ Hhi).
  reflexivity.
Qed.

Lemma callback_quat s config now q msgs :
  check_quat s (Config.quat config) = (q, msgs) ->
  callback s config CHANGE_QUAT now =
  {| sender := with_transform s (rebuilt s q (origin_of s) now);
     snapshot :=
       Config.set_use_quaternion
         (Config.set_rpy (Config.set_quat config q)
            (displayRPY getRPY (with_transform s (rebuilt s q (origin_of s) now))))
         false;
     log := level_msg CHANGE_QUAT :: msgs |}.
Proof.
  intros H. unfold reconfCallback.
  change (CHANGE_QUAT =? CHANGE_ALL)%Z with false.
  change (CHANGE_QUAT =? CHANGE_XYZ)%Z with false.
  change (CHANGE_QUAT =? CHANGE_RPY)%Z with false.
  change (CHANGE_QUAT =? CHANGE_QUAT)%Z with true.
  cbv iota. unfold reconf_quat. rewrite H. reflexivity.
Qed.

Lemma set_rpy_quat c rpy : Config.quat (Config.set_rpy c rpy) = Config.quat c.
Proof. destruct rpy as [[r p] y]. reflexivity. Qed.

Lemma set_rpy_use_quaternion c rpy :
  Config.use_quaternion (Config.set_rpy c rpy) = Config.use_quaternion c.
Proof. destruct rpy as [[r p] y]. reflexivity. Qed.

Lemma set_rpy_rpy c rpy : Config.rpy (Config.set_rpy c rpy) = rpy.
Proof. destruct rpy as [[r p] y]. reflexivity. Qed.

Lemma set_quat_quat c q : Config.quat (Config.set_quat c q) = q.
Proof. destruct q. reflexivity. Qed.

Lemma set_use_quaternion_quat c b :
  Config.quat (Config.set_use_quaternion c b) = Config.quat c.
Proof. reflexivity. Qed.

Lemma set_use_quaternion_rpy c b :
  Config.rpy (Config.set_use_quaternion c b) = Config.rpy c.
Proof. reflexivity. Qed.

Lemma snapshot_quat_after_edit c q rpy :
  Config.quat (Config.set_use_quaternion
                 (Config.set_rpy (Config.set_quat c q) rpy) false) = q.
Proof.
  rewrite set_use_quaternion_quat, set_rpy_quat. apply set_quat_quat.
Qed.

(** *** The quaternion edit *)

(** C1 (as amended): a ChangeQuaternion edit whose payload has squared norm
    0 keeps the previous rotation and the translation of the transform, and
    returns normally; the diagnostic it surfaces is the [ROS_ERROR] line,
    at error level, and no warning-level line is logged. *)
Theorem zero_quaternion_rejected_with_error s config now :
  (Quaternion.length2 (Config.quat config) =? 0) = true ->
  let o := callback s config CHANGE_QUAT now in
  rotation_of (sender o) = rotation_of s /\
  origin_of (sender o) = origin_of s /\
  log o = [level_msg CHANGE_QUAT; rejected_msg] /\
  surfaces ERROR o /\
  ~ surfaces WARN o.
Proof.
  intros H o. subst o.
  rewrite (callback_quat s config now _ _ (check_quat_zero s _ H)).
  cbn [sender log snapshot].
  repeat split.
  - exists rejected_msg. split; [ right; left; reflexivity | reflexivity ].
  - intros [e [[He | [He | []]] Hsev]]; subst e; discriminate Hsev.
Qed.

(** C2: a ChangeQuaternion edit whose payload has a nonzero squared norm
    outside [1 - DBL_EPSILON, 1 + DBL_EPSILON] applies the normalized
    quaternion, logs a warning, and reports the normalized value in the
    snapshot's quaternion fields; for the payload (1,1,0,0) the applied
    rotation is (0.707, 0.707, 0, 0) to within 0.001. *)
Theorem off_unit_quaternion_normalized s config now :
  (Quaternion.length2 (Config.quat config) =? 0) = false ->
  (1 + DBL_EPSILON <? Quaternion.length2 (Config.quat config))
    || (Quaternion.length2 (Config.quat config) <? 1 - DBL_EPSILON) = true ->
  let o := callback s config CHANGE_QUAT now in
  rotation_of (sender o) = Quaternion.normalize (Config.quat config) /\
  Config.quat (snapshot o) = Quaternion.normalize (Config.quat config) /\
  log o = [level_msg CHANGE_QUAT; normalized_msg] /\
  surfaces WARN o /\
  (Config.quat config = Quaternion.mk 1 1 0 0 ->
   near 0.001 (Quaternion.x (rotation_of (sender o))) 0.707 = true /\
   near 0.001 (Quaternion.y (rotation_of (sender o))) 0.707 = true /\
   Quaternion.z (rotation_of (sender o)) = 0 /\
   Quaternion.w (rotation_of (sender o)) = 0).
Proof.
  intros H0 H1 o. subst o.
  rewrite (callback_quat s config now _ _ (check_quat_off_unit s _ H0 H1)).
  cbn [sender log snapshot].
  split; [ reflexivity | ].
  split; [ apply snapshot_quat_after_edit | ].
  split; [ reflexivity | ].
  split.
  - exists normalized_msg. split; [ right; left; reflexivity | reflexivity ].
  - intros Hq. unfold rotation_of. cbn [with_transform transform_ rebuilt
      StampedTransform.getRotation]. rewrite Hq.
    repeat split; vm_compute; reflexivity.
Qed.

Lemma toDegrees_scales rpy :
  let '(r, p, y) := rpy in
  toDegrees rpy = (r * 180 / M_PI, p * 180 / M_PI, y * 180 / M_PI).
Proof. destruct rpy as [[r p] y]. reflexivity. Qed.

Lemma displayRPY_scales s :
  let '(r, p, y) := getRPY (rotation_of s) in
  displayRPY getRPY s =
  if (angle_units_ s =? USE_DEGREES)%Z
  then (r * 180 / M_PI, p * 180 / M_PI, y * 180 / M_PI)
  else (r, p, y).
Proof.
  unfold displayRPY. fold (rotation_of s).
  destruct (getRPY (rotation_of s)) as [[r p] y].
  destruct (angle_units_ s =? USE_DEGREES)%Z; reflexivity.
Qed.

Lemma displayRPY_rebuilt s now :
  displayRPY getRPY (with_transform s (rebuilt s (rotation_of s) (origin_of s) now))
  = displayRPY getRPY s.
Proof. reflexivity. Qed.

Lemma restamped_differs s tr :
  StampedTransform.stamp_ (transform_ s) <> StampedTransform.stamp_ tr ->
  with_transform s tr <> s.
Proof.
  intros Hne Heq. apply Hne. rewrite <- Heq at 1. reflexivity.
Qed.

(** C10: a ChangeQuaternion edit rejected for a zero squared norm still
    rebuilds the transform from the retained rotation and translation and
    stamps it [now], rewrites the snapshot's quaternion fields and its
    roll/pitch/yaw from the retained rotation (the angles [getRPY] gives
    for it, each times 180 / M_PI when the unit is degrees), and clears
    use_quaternion; hence the object changes whenever [now] differs
    from the old stamp, and the snapshot changes whenever the box was
    ticked. *)
Theorem rejected_quaternion_edit_still_writes s config now :
  (Quaternion.length2 (Config.quat config) =? 0) = true ->
  let o := callback s config CHANGE_QUAT now in
  transform_ (sender o) = rebuilt s (rotation_of s) (origin_of s) now /\
  StampedTransform.stamp_ (transform_ (sender o)) = now /\
  Config.quat (snapshot o) = rotation_of s /\
  (let '(r, p, y) := getRPY (rotation_of s) in
   Config.rpy (snapshot o) =
   if (angle_units_ s =? USE_DEGREES)%Z
   then (r * 180 / M_PI, p * 180 / M_PI, y * 180 / M_PI)
   else (r, p, y)) /\
  Config.use_quaternion (snapshot o) = false /\
  (StampedTransform.stamp_ (transform_ s) <> now -> sender o <> s) /\
  (Config.use_quaternion config = true -> snapshot o <> config).
Proof.
  intros H o. subst o.
  rewrite (callback_quat s config now _ _ (check_quat_zero s _ H)).
  cbn [sender log snapshot]. rewrite displayRPY_rebuilt.
  split; [ reflexivity | ].
  split; [ reflexivity | ].
  split; [ apply snapshot_quat_after_edit | ].
  split; [ rewrite set_use_quaternion_rpy, set_rpy_rpy;
           pose proof (displayRPY_scales s) as D;
           destruct (getRPY (rotation_of s)) as [[r p] y]; exact D | ].
  split; [ reflexivity | ].
  split.
  - intros Hne. apply restamped_differs. exact Hne.
  - intros Hbox Heq.
    apply (f_equal Config.use_quaternion) in Heq.
    cbn [Config.set_use_quaternion Config.use_quaternion] in Heq.
    congruence.
Qed.

(** *** Dispatch on the level *)

Lemma callback_all s config now :
  callback s config CHANGE_ALL now =
  {| sender := s;
     snapshot :=
       Config.set_quat
         (Config.set_rpy (Config.set_xyz config (origin_of s)) (displayRPY getRPY s))
         (rotation_of s);
     log := [level_msg CHANGE_ALL] |}.
Proof. reflexivity. Qed.

Lemma callback_xyz s config now :
  callback s config CHANGE_XYZ now =
  {| sender := with_transform s (rebuilt s (rotation_of s) (Config.xyz config) now);
     snapshot := config;
     log := [level_msg CHANGE_XYZ] |}.
Proof. reflexivity. Qed.

Lemma callback_rpy s config now :
  callback s config CHANGE_RPY now =
  let '(R, P, Y) := edited_rpy s config in
  {| sender := with_transform s (rebuilt s (setRPY R P Y) (origin_of s) now);
     snapshot := Config.set_quat config (setRPY R P Y);
     log := [level_msg CHANGE_RPY] |}.
Proof.
  unfold reconfCallback.
  change (CHANGE_RPY =? CHANGE_ALL)%Z with false.
  change (CHANGE_RPY =? CHANGE_XYZ)%Z with false.
  change (CHANGE_RPY =? CHANGE_RPY)%Z with true.
  cbv iota. unfold reconf_rpy, edited_rpy.
  destruct (if (angle_units_ s =? USE_DEGREES)%Z
            then toRadians (Config.rpy config) else Config.rpy config)
    as [[R P] Y].
  reflexivity.
Qed.

Lemma callback_units_same s config now :
  angle_units_ s = Config.angle_units config ->
  callback s config CHANGE_UNITS now =
  {| sender := s; snapshot := config; log := [level_msg CHANGE_UNITS] |}.
Proof.
  intros H. unfold reconfCallback.
  change (CHANGE_UNITS =? CHANGE_ALL)%Z with false.
  change (CHANGE_UNITS =? CHANGE_XYZ)%Z with false.
  change (CHANGE_UNITS =? CHANGE_RPY)%Z with false.
  change (CHANGE_UNITS =? CHANGE_QUAT)%Z with false.
  change (CHANGE_UNITS =? CHANGE_UNITS)%Z with true.
  cbv iota. unfold reconf_units. rewrite H, Z.eqb_refl. reflexivity.
Qed.

Lemma callback_other s config level now :
  level <> CHANGE_ALL -> level <> CHANGE_XYZ -> level <> CHANGE_RPY ->
  level <> CHANGE_QUAT -> level <> CHANGE_UNITS ->
  callback s config level now =
  {| sender := s; snapshot := config; log := [level_msg level] |}.
Proof.
  intros H1 H2 H3 H4 H5. unfold reconfCallback.
  apply Z.eqb_neq in H1, H2, H3, H4, H5.
  rewrite H1, H2, H3, H4, H5. reflexivity.
Qed.

Lemma reconfRPYLimits_angle_units s :
  angle_units_ (reconfRPYLimits s) = angle_units_ s.
Proof.
  unfold reconfRPYLimits. destruct (angle_units_ s =? USE_RADIANS)%Z; reflexivity.
Qed.

Lemma reconfRPYLimits_transform s :
  transform_ (reconfRPYLimits s) = transform_ s.
Proof.
  unfold reconfRPYLimits. destruct (angle_units_ s =? USE_RADIANS)%Z; reflexivity.
Qed.

Lemma callback_units_changed s config now :
  angle_units_ s <> Config.angle_units config ->
  callback s config CHANGE_UNITS now =
  let u := Config.angle_units config in
  {| sender := reconfRPYLimits (with_angle_units s u);
     snapshot :=
       if (u =? USE_DEGREES)%Z
       then Config.set_rpy (Config.set_angle_units config u)
                           (toDegrees (getRPY (rotation_of s)))
       else Config.set_rpy config (getRPY (rotation_of s));
     log := [level_msg CHANGE_UNITS; ROS_INFO ("UNITS: " ++ show_int u)] |}.
Proof.
  intros H. unfold reconfCallback.
  change (CHANGE_UNITS =? CHANGE_ALL)%Z with false.
  change (CHANGE_UNITS =? CHANGE_XYZ)%Z with false.
  change (CHANGE_UNITS =? CHANGE_RPY)%Z with false.
  change (CHANGE_UNITS =? CHANGE_QUAT)%Z with false.
  change (CHANGE_UNITS =? CHANGE_UNITS)%Z with true.
  cbv iota. unfold reconf_units.
  apply Z.eqb_neq in H. rewrite H.
  rewrite reconfRPYLimits_angle_units, reconfRPYLimits_transform.
  cbn [with_angle_units angle_units_ transform_].
  destruct (Config.angle_units config =? USE_DEGREES)%Z; reflexivity.
Qed.

(** C9: every ChangeQuaternion edit leaves use_quaternion false in the
    snapshot, and a callback at any other level returns the flag it was
    given. *)
Theorem use_quaternion_reset_only_by_quaternion_edit s config now :
  Config.use_quaternion (snapshot (callback s config CHANGE_QUAT now)) = false /\
  (forall level, level <> CHANGE_QUAT ->
     Config.use_quaternion (snapshot (callback s config level now))
     = Config.use_quaternion config).
Proof.
  split.
  - destruct (check_quat s (Config.quat config)) as [q msgs] eqn:E.
    rewrite (callback_quat s config now q msgs E). reflexivity.
  - intros level Hq.
    destruct (Z.eq_dec level CHANGE_ALL) as [-> | H1];
      [ rewrite callback_all; cbn [snapshot];
        destruct (displayRPY getRPY s) as [[r p] y]; reflexivity | ].
    destruct (Z.eq_dec level CHANGE_XYZ) as [-> | H2];
      [ rewrite callback_xyz; reflexivity | ].
    destruct (Z.eq_dec level CHANGE_RPY) as [-> | H3];
      [ rewrite callback_rpy; destruct (edited_rpy s config) as [[R P] Y];
        reflexivity | ].
    destruct (Z.eq_dec level CHANGE_UNITS) as [-> | H5].
    + destruct (Z.eq_dec (angle_units_ s) (Config.angle_units config)) as [E | E].
      * rewrite (callback_units_same s config now E). reflexivity.
      * rewrite (callback_units_changed s config now E). cbn [snapshot].
        destruct (Config.angle_units config =? USE_DEGREES)%Z;
          rewrite set_rpy_use_quaternion; reflexivity.
    + rewrite (callback_other s config level now H1 H2 H3 Hq H5). reflexivity.
Qed.

(** C4: for a quaternion whose squared norm is within machine epsilon of
    1, ChangeQuaternion followed by Initialize returns a snapshot whose
    quaternion fields are exactly the payload. *)
Theorem quaternion_edit_then_initialize s config config' now now' :
  is_unit (Config.quat config) = true ->
  let o := callback s config CHANGE_QUAT now in
  let o' := callback (sender o) config' CHANGE_ALL now' in
  Config.quat (snapshot o') = Config.quat config /\
  sender o' = sender o.
Proof.
  intros H o o'. subst o o'.
  rewrite (callback_quat s config now _ _ (check_quat_unit s _ H)).
  cbn [sender]. rewrite callback_all. cbn [snapshot sender].
  split; [ apply set_quat_quat | reflexivity ].
Qed.

(** *** Translation and Euler edits *)

(** C5: a ChangeTranslation edit with payload (x,y,z) leaves a transform
    with translation (x,y,z), the rotation held before the edit and the
    stamp [now]; the snapshot comes back as it was passed in, so its
    roll/pitch/yaw and quaternion fields are untouched. *)
Theorem translation_edit s config now :
  let o := callback s config CHANGE_XYZ now in
  origin_of (sender o)
    = Vector3.mk (Config.x config) (Config.y config) (Config.z config) /\
  rotation_of (sender o) = rotation_of s /\
  StampedTransform.stamp_ (transform_ (sender o)) = now /\
  Config.rpy (snapshot o) = Config.rpy config /\
  Config.quat (snapshot o) = Config.quat config /\
  snapshot o = config.
Proof. rewrite callback_xyz. cbn. repeat split. Qed.

(** C6: a ChangeEuler edit converts the payload to radians exactly when
    the active unit is degrees, composes the rotation with
    [setRPY roll pitch yaw], keeps the translation, stamps [now], and
    refreshes the snapshot's quaternion fields from the new rotation. *)
Theorem euler_edit s config now :
  let o := callback s config CHANGE_RPY now in
  let '(R, P, Y) :=
    if (angle_units_ s =? USE_DEGREES)%Z
    then (Config.roll config / 180 * M_PI,
          Config.pitch config / 180 * M_PI,
          Config.yaw config / 180 * M_PI)
    else (Config.roll config, Config.pitch config, Config.yaw config) in
  rotation_of (sender o) = setRPY R P Y /\
  origin_of (sender o) = origin_of s /\
  StampedTransform.stamp_ (transform_ (sender o)) = now /\
  Config.quat (snapshot o) = rotation_of (sender o).
Proof.
  rewrite callback_rpy. unfold edited_rpy, toRadians, Config.rpy.
  destruct (angle_units_ s =? USE_DEGREES)%Z; cbn [sender snapshot];
    (split; [ reflexivity | ]); (split; [ reflexivity | ]);
    (split; [ reflexivity | ]); apply set_quat_quat.
Qed.

(** *** The angle-unit edit *)

Lemma reconfRPYLimits_limits s :
  rpy_limits (reconfRPYLimits s) =
  if (angle_units_ s =? USE_RADIANS)%Z
  then ((- M_PI, - M_PI, - M_PI), (M_PI, M_PI, M_PI))
  else ((-180, -180, -180), (180, 180, 180)).
Proof.
  unfold reconfRPYLimits. destruct (angle_units_ s =? USE_RADIANS)%Z; reflexivity.
Qed.

Lemma yaw_set_rpy c r p y : Config.yaw (Config.set_rpy c (r, p, y)) = y.
Proof. reflexivity. Qed.

(** C7: a ChangeAngleUnits edit requesting the current unit changes
    neither the object nor the snapshot.  Requesting the other unit makes
    it the active one, leaves the transform alone, publishes the
    roll/pitch/yaw range +-pi for radians and +-180 for degrees, and
    rewrites the snapshot's roll/pitch/yaw from the current rotation in
    the new unit: the angles [getRPY] gives for it, as they are for
    radians and each times 180 / M_PI for degrees.  When the rotation
    decomposes with yaw = M_PI/2, the
    switch from radians to degrees shows yaw = 90, and switching back
    shows yaw = M_PI/2 again, which is 1.5708 to within 0.0001. *)
Theorem angle_units_edit s config now :
  let u := Config.angle_units config in
  u = USE_RADIANS \/ u = USE_DEGREES ->
  let o := callback s config CHANGE_UNITS now in
  (u = angle_units_ s -> sender o = s /\ snapshot o = config) /\
  (u <> angle_units_ s ->
     angle_units_ (sender o) = u /\
     transform_ (sender o) = transform_ s /\
     (u = USE_RADIANS ->
        rpy_limits (sender o) = ((- M_PI, - M_PI, - M_PI), (M_PI, M_PI, M_PI)) /\
        Config.rpy (snapshot o) = getRPY (rotation_of s)) /\
     (u = USE_DEGREES ->
        rpy_limits (sender o) = ((-180, -180, -180), (180, 180, 180)) /\
        let '(r, p, y) := getRPY (rotation_of s) in
        Config.rpy (snapshot o)
        = (r * 180 / M_PI, p * 180 / M_PI, y * 180 / M_PI))) /\
  (forall r p,
     angle_units_ s = USE_RADIANS -> u = USE_DEGREES ->
     getRPY (rotation_of s) = (r, p, M_PI / 2) ->
     Config.yaw (snapshot o) = 90 /\
     forall config' now',
       Config.angle_units config' = USE_RADIANS ->
       let o' := callback (sender o) config' CHANGE_UNITS now' in
       Config.yaw (snapshot o') = M_PI / 2 /\
       near 0.0001 (Config.yaw (snapshot o')) 1.5708 = true).
Proof.
  intros u Hu o. subst o.
  split; [ | split ].
  - intros E. symmetry in E. fold u in E.
    rewrite (callback_units_same s config now E). split; reflexivity.
  - intros E.
    assert (E' : angle_units_ s <> Config.angle_units config)
      by (intros F; apply E; symmetry; exact F).
    rewrite (callback_units_changed s config now E'). cbv zeta.
    cbn [sender snapshot]. fold u.
    rewrite reconfRPYLimits_angle_units, reconfRPYLimits_transform,
      reconfRPYLimits_limits.
    cbn [with_angle_units angle_units_ transform_].
    split; [ reflexivity | ]. split; [ reflexivity | ].
    split; intros ->.
    + split; [ reflexivity | apply set_rpy_rpy ].
    + split; [ reflexivity | ].
      change (USE_DEGREES =? USE_DEGREES)%Z with true. cbv iota.
      rewrite set_rpy_rpy.
      pose proof (toDegrees_scales (getRPY (rotation_of s))) as D.
      destruct (getRPY (rotation_of s)) as [[r p] y]. exact D.
  - intros r p Hs Hd Hrpy.
    assert (E' : angle_units_ s <> Config.angle_units config)
      by (fold u; rewrite Hs, Hd; discriminate).
    rewrite (callback_units_changed s config now E'). cbv zeta.
    cbn [sender snapshot]. fold u. rewrite Hd.
    change (USE_DEGREES =? USE_DEGREES)%Z with true. cbv iota.
    rewrite Hrpy. split; [ reflexivity | ].
    intros config' now' Hr.
    assert (E'' : angle_units_ (reconfRPYLimits (with_angle_units s USE_DEGREES))
                  <> Config.angle_units config')
      by (rewrite reconfRPYLimits_angle_units, Hr; discriminate).
    rewrite (callback_units_changed _ config' now' E''). cbv zeta.
    cbn [snapshot]. rewrite Hr.
    change (USE_RADIANS =? USE_DEGREES)%Z with false. cbv iota.
    unfold rotation_of. rewrite reconfRPYLimits_transform.
    cbn [with_angle_units transform_]. fold (rotation_of s). rewrite Hrpy.
    split; reflexivity.
Qed.

(** *** Frame identifiers *)

Lemma callback_frames s config level now :
  frames (sender (callback s config level now)) = frames s.
Proof.
  destruct (Z.eq_dec level CHANGE_ALL) as [-> | H1];
    [ rewrite callback_all; reflexivity | ].
  destruct (Z.eq_dec level CHANGE_XYZ) as [-> | H2];
    [ rewrite callback_xyz; reflexivity | ].
  destruct (Z.eq_dec level CHANGE_RPY) as [-> | H3];
    [ rewrite callback_rpy; destruct (edited_rpy s config) as [[R P] Y];
      reflexivity | ].
  destruct (Z.eq_dec level CHANGE_QUAT) as [-> | H4].
  { destruct (check_quat s (Config.quat config)) as [q msgs] eqn:E.
    rewrite (callback_quat s config now q msgs E). reflexivity. }
  destruct (Z.eq_dec level CHANGE_UNITS) as [-> | H5].
  - destruct (Z.eq_dec (angle_units_ s) (Config.angle_units config)) as [E | E].
    + rewrite (callback_units_same s config now E). reflexivity.
    + rewrite (callback_units_changed s config now E). cbv zeta.
      cbn [sender]. unfold frames. rewrite reconfRPYLimits_transform.
      reflexivity.
  - rewrite (callback_other s config level now H1 H2 H3 H4 H5). reflexivity.
Qed.

Lemma step_frames s c : frames (step setRPY getRPY s c) = frames s.
Proof.
  destruct c as [config level now | time]; cbn [step].
  - apply callback_frames.
  - reflexivity.
Qed.

Lemma run_frames calls : forall s, frames (run setRPY getRPY s calls) = frames s.
Proof.
  induction calls as [ | c calls IH]; intros s; cbn [run fold_left].
  - reflexivity.
  - unfold run in IH. rewrite IH. apply step_frames.
Qed.

(** C8: whichever constructor built the object, after any sequence of
    reconfiguration callbacks (at any level) and [send] calls the
    transform's frame_id and child_frame_id are the strings given to the
    constructor. *)
Theorem frame_ids_fixed_at_construction
    (reconf_server_0 : Server.t) (x y z qx qy qz qw yaw pitch roll : float)
    (time : Time) (frame_id child_frame_id : string) (calls : list Call) :
  let by_quat :=
    TransformSender_quat reconf_server_0 x y z qx qy qz qw time
                         frame_id child_frame_id in
  let by_ypr :=
    TransformSender_ypr setRPY reconf_server_0 x y z yaw pitch roll time
                        frame_id child_frame_id in
  StampedTransform.frame_id_ (transform_ (run setRPY getRPY by_quat calls))
    = frame_id /\
  StampedTransform.child_frame_id_ (transform_ (run setRPY getRPY by_quat calls))
    = child_frame_id /\
  StampedTransform.frame_id_ (transform_ (run setRPY getRPY by_ypr calls))
    = frame_id /\
  StampedTransform.child_frame_id_ (transform_ (run setRPY getRPY by_ypr calls))
    = child_frame_id.
Proof.
  intros by_quat by_ypr.
  pose proof (run_frames calls by_quat) as Hq.
  pose proof (run_frames calls by_ypr) as He.
  unfold frames in Hq, He. cbn in Hq, He.
  inversion Hq as [[Hq1 Hq2]]. inversion He as [[He1 He2]].
  rewrite Hq1, Hq2. repeat split; assumption.
Qed.

End Properties.

(** ** The quaternion constructor *)

(** C3: the quaternion constructor stores the rotation it is given.  Built
    from (0,0,0,0), the object holds a rotation of squared norm 0, which is
    not within 0.5 of 1; the check that [case CHANGE_QUAT] makes on the same
    four numbers is not made here. *)
Theorem quaternion_constructor_keeps_zero_rotation
    (reconf_server_0 : Server.t) (x y z : float) (time : Time)
    (frame_id child_frame_id : string) :
  let s := TransformSender_quat reconf_server_0 x y z 0 0 0 0 time
                                frame_id child_frame_id in
  rotation_of s = Quaternion.mk 0 0 0 0 /\
  Quaternion.length2 (rotation_of s) = 0 /\
  unit_within 0.5 (rotation_of s) = false /\
  is_unit (rotation_of s) = false.
Proof. repeat split. Qed.

(** ** The theorems at concrete edits *)

Local Abbreviation run_callback := (reconfCallback Ref.setRPY Ref.getRPY).

(** C1, as stated, at the payload (0,0,0,0): the squared norm is 0, yet no
    warning-level line is logged (the line logged is at error level). *)
Lemma zero_quaternion_edit_logs_no_warning :
  ~ ((Quaternion.length2 (Config.quat (Example.quat_edit 0 0 0 0)) =? 0) = true ->
     surfaces WARN
       (run_callback Example.identity_sender (Example.quat_edit 0 0 0 0)
                     CHANGE_QUAT 200%Z)).
Proof.
  intros H. destruct (H eq_refl) as [e [Hin Hsev]].
  vm_compute in Hin.
  destruct Hin as [He | [He | []]]; subst e; discriminate Hsev.
Qed.

Lemma zero_quaternion_rejected_with_error_witness :
  (Quaternion.length2 (Config.quat (Example.quat_edit 0 0 0 0)) =? 0) = true /\
  rotation_of
    (sender (run_callback Example.identity_sender (Example.quat_edit 0 0 0 0)
                          CHANGE_QUAT 200%Z))
  = Quaternion.mk 0 0 0 1.
Proof.
  split; [ reflexivity | ].
  exact (proj1 (zero_quaternion_rejected_with_error Ref.setRPY Ref.getRPY
                  Example.identity_sender (Example.quat_edit 0 0 0 0) 200%Z
                  eq_refl)).
Defined.

Lemma off_unit_quaternion_normalized_witness :
  (Quaternion.length2 (Config.quat (Example.quat_edit 1 1 0 0)) =? 0) = false /\
  (1 + DBL_EPSILON <? Quaternion.length2 (Config.quat (Example.quat_edit 1 1 0 0)))
    || (Quaternion.length2 (Config.quat (Example.quat_edit 1 1 0 0))
        <? 1 - DBL_EPSILON) = true /\
  near 0.001
    (Quaternion.x
       (rotation_of
          (sender (run_callback Example.identity_sender (Example.quat_edit 1 1 0 0)
                                CHANGE_QUAT 200%Z))))
    0.707 = true.
Proof.
  split; [ reflexivity | ]. split; [ reflexivity | ].
  destruct (off_unit_quaternion_normalized Ref.setRPY Ref.getRPY
              Example.identity_sender (Example.quat_edit 1 1 0 0) 200%Z
              eq_refl eq_refl) as (_ & _ & _ & _ & H).
  exact (proj1 (H eq_refl)).
Defined.

Lemma rejected_quaternion_edit_still_writes_witness :
  (Quaternion.length2 (Config.quat (Example.quat_edit 0 0 0 0)) =? 0) = true /\
  sender (run_callback Example.identity_sender (Example.quat_edit 0 0 0 0)
                       CHANGE_QUAT 200%Z)
  <> Example.identity_sender /\
  snapshot (run_callback Example.identity_sender (Example.quat_edit 0 0 0 0)
                         CHANGE_QUAT 200%Z)
  <> Example.quat_edit 0 0 0 0.
Proof.
  split; [ reflexivity | ].
  destruct (rejected_quaternion_edit_still_writes Ref.setRPY Ref.getRPY
              Example.identity_sender (Example.quat_edit 0 0 0 0) 200%Z
              eq_refl) as (_ & _ & _ & _ & _ & Hs & Hc).
  split; [ apply Hs; discriminate | apply Hc; reflexivity ].
Defined.

Lemma use_quaternion_reset_only_by_quaternion_edit_witness :
  CHANGE_XYZ <> CHANGE_QUAT /\
  Config.use_quaternion
    (snapshot (run_callback Example.identity_sender (Example.xyz_edit 1 2 3)
                            CHANGE_QUAT 200%Z)) = false /\
  Config.use_quaternion
    (snapshot (run_callback Example.identity_sender (Example.xyz_edit 1 2 3)
                            CHANGE_XYZ 200%Z)) = true.
Proof.
  split; [ discriminate | ].
  destruct (use_quaternion_reset_only_by_quaternion_edit Ref.setRPY Ref.getRPY
              Example.identity_sender (Example.xyz_edit 1 2 3) 200%Z)
    as (Hq & Hother).
  split; [ exact Hq | ].
  exact (Hother CHANGE_XYZ ltac:(discriminate)).
Defined.

Lemma quaternion_edit_then_initialize_witness :
  is_unit (Config.quat (Example.quat_edit 0 0.6 0 0.8)) = true /\
  Config.quat
    (snapshot
       (run_callback
          (sender (run_callback Example.identity_sender
                                (Example.quat_edit 0 0.6 0 0.8) CHANGE_QUAT 200%Z))
          Ref.config0 CHANGE_ALL 300%Z))
  = Quaternion.mk 0 0.6 0 0.8.
Proof.
  split; [ reflexivity | ].
  exact (proj1 (quaternion_edit_then_initialize Ref.setRPY Ref.getRPY
                  Example.identity_sender (Example.quat_edit 0 0.6 0 0.8)
                  Ref.config0 200%Z 300%Z eq_refl)).
Defined.

Lemma angle_units_edit_witness :
  (Config.angle_units (Example.units_edit USE_DEGREES) = USE_RADIANS
   \/ Config.angle_units (Example.units_edit USE_DEGREES) = USE_DEGREES) /\
  Ref.getRPY (rotation_of Example.quarter_turn_sender) = (0, 0, M_PI / 2) /\
  Config.yaw
    (snapshot (run_callback Example.quarter_turn_sender
                            (Example.units_edit USE_DEGREES) CHANGE_UNITS 200%Z))
  = 90 /\
  Config.yaw
    (snapshot
       (run_callback
          (sender (run_callback Example.quarter_turn_sender
                                (Example.units_edit USE_DEGREES) CHANGE_UNITS 200%Z))
          (Example.units_edit USE_RADIANS) CHANGE_UNITS 300%Z))
  = M_PI / 2.
Proof.
  split; [ right; reflexivity | ]. split; [ vm_compute; reflexivity | ].
  destruct (angle_units_edit Ref.setRPY Ref.getRPY Example.quarter_turn_sender
              (Example.units_edit USE_DEGREES) 200%Z (or_intror eq_refl))
    as (_ & _ & Hex).
  destruct (Hex 0 0 eq_refl eq_refl ltac:(vm_compute; reflexivity)) as (H90 & Hback).
  split; [ exact H90 | ].
  exact (proj1 (Hback (Example.units_edit USE_RADIANS) 300%Z eq_refl)).
Defined.

(** ** Further properties of the callback *)

Lemma level_cases (level : Z) :
  level = CHANGE_ALL \/ level = CHANGE_XYZ \/ level = CHANGE_RPY \/
  level = CHANGE_QUAT \/ level = CHANGE_UNITS \/
  (level <> CHANGE_ALL /\ level <> CHANGE_XYZ /\ level <> CHANGE_RPY /\
   level <> CHANGE_QUAT /\ level <> CHANGE_UNITS).
Proof.
  destruct (Z.eq_dec level CHANGE_ALL); [ tauto | ].
  destruct (Z.eq_dec level CHANGE_XYZ); [ tauto | ].
  destruct (Z.eq_dec level CHANGE_RPY); [ tauto | ].
  destruct (Z.eq_dec level CHANGE_QUAT); [ tauto | ].
  destruct (Z.eq_dec level CHANGE_UNITS); tauto.
Qed.

Ltac shape_side :=
  first [ reflexivity | tauto
        | (let H := fresh in intros H; vm_compute in H; discriminate H)
        | (let H := fresh in intros H; exfalso; apply H; reflexivity) ].

Section Frame.

Variable setRPY : float -> float -> float -> Quaternion.t.
Variable getRPY : Quaternion.t -> float * float * float.

Local Abbreviation callback := (reconfCallback setRPY getRPY).

(** The object a call leaves is the one it found, or that one with its
    transform rebuilt and stamped [now], or (for a unit switch) that one
    with a new unit and new limits. *)
Lemma callback_sender_shape s config level now :
  sender (callback s config level now) = s \/
  (exists q v,
     (level = CHANGE_XYZ \/ level = CHANGE_RPY \/ level = CHANGE_QUAT) /\
     (level = CHANGE_XYZ -> q = rotation_of s) /\
     (level <> CHANGE_XYZ -> v = origin_of s) /\
     sender (callback s config level now) = with_transform s (rebuilt s q v now)) \/
  (level = CHANGE_UNITS /\
   sender (callback s config level now)
   = reconfRPYLimits (with_angle_units s (Config.angle_units config))).
Proof.
  destruct (level_cases level)
    as [-> | [-> | [-> | [-> | [-> | (H1 & H2 & H3 & H4 & H5)]]]]].
  - left. rewrite callback_all. reflexivity.
  - right; left. exists (rotation_of s), (Config.xyz config).
    rewrite callback_xyz. repeat split; shape_side.
  - right; left. rewrite callback_rpy.
    destruct (edited_rpy s config) as [[R P] Y].
    exists (setRPY R P Y), (origin_of s).
    repeat split; shape_side.
  - right; left.
    destruct (check_quat s (Config.quat config)) as [q msgs] eqn:E.
    rewrite (callback_quat setRPY getRPY s config now q msgs E).
    exists q, (origin_of s). repeat split; shape_side.
  - destruct (Z.eq_dec (angle_units_ s) (Config.angle_units config)) as [E | E].
    + left. rewrite (callback_units_same setRPY getRPY s config now E). reflexivity.
    + right; right. split; [ reflexivity | ].
      rewrite (callback_units_changed setRPY getRPY s config now E). reflexivity.
  - left. rewrite (callback_other setRPY getRPY s config level now H1 H2 H3 H4 H5).
    reflexivity.
Qed.

(** X1: a level that is none of the five case labels of the [switch]
    changes nothing: the object and the configuration come back as they
    were and only the "Level" line is logged.  A mask combining two
    change bits, such as CHANGE_XYZ | CHANGE_RPY, is such a level. *)
Theorem unlisted_level_changes_nothing s config level now :
  level <> CHANGE_ALL -> level <> CHANGE_XYZ -> level <> CHANGE_RPY ->
  level <> CHANGE_QUAT -> level <> CHANGE_UNITS ->
  sender (callback s config level now) = s /\
  snapshot (callback s config level now) = config /\
  log (callback s config level now) = [level_msg level].
Proof.
  intros H1 H2 H3 H4 H5.
  rewrite (callback_other setRPY getRPY s config level now H1 H2 H3 H4 H5).
  repeat split.
Qed.

Lemma mirror_xyz c v rpy q :
  Config.xyz (Config.set_quat (Config.set_rpy (Config.set_xyz c v) rpy) q) = v.
Proof. destruct rpy as [[r p] y], v. reflexivity. Qed.

Lemma mirror_rpy c v rpy q :
  Config.rpy (Config.set_quat (Config.set_rpy (Config.set_xyz c v) rpy) q) = rpy.
Proof. destruct rpy as [[r p] y]. reflexivity. Qed.

Lemma mirror_flags c v rpy q :
  Config.use_quaternion
    (Config.set_quat (Config.set_rpy (Config.set_xyz c v) rpy) q)
  = Config.use_quaternion c /\
  Config.angle_units
    (Config.set_quat (Config.set_rpy (Config.set_xyz c v) rpy) q)
  = Config.angle_units c.
Proof. destruct rpy as [[r p] y]. split; reflexivity. Qed.

Lemma mirror_idempotent c v rpy q :
  let c' := Config.set_quat (Config.set_rpy (Config.set_xyz c v) rpy) q in
  Config.set_quat (Config.set_rpy (Config.set_xyz c' v) rpy) q = c'.
Proof. destruct rpy as [[r p] y]. reflexivity. Qed.

(** X2: the CHANGE_ALL call leaves the object as it was; the configuration
    it returns carries the transform's translation and rotation, the
    roll/pitch/yaw [getRPY] gives for that rotation (each times 180 / M_PI
    when the active unit is degrees), and the
    use_quaternion and angle_units fields it was given (the active unit is
    not copied into it).  Calling it again on its own result returns the
    same configuration. *)
Theorem initialize_mirrors_transform s config now now' :
  let o := callback s config CHANGE_ALL now in
  sender o = s /\
  Config.xyz (snapshot o) = origin_of s /\
  Config.quat (snapshot o) = rotation_of s /\
  (let '(r, p, y) := getRPY (rotation_of s) in
   Config.rpy (snapshot o) =
   if (angle_units_ s =? USE_DEGREES)%Z
   then (r * 180 / M_PI, p * 180 / M_PI, y * 180 / M_PI)
   else (r, p, y)) /\
  Config.use_quaternion (snapshot o) = Config.use_quaternion config /\
  Config.angle_units (snapshot o) = Config.angle_units config /\
  snapshot (callback (sender o) (snapshot o) CHANGE_ALL now') = snapshot o.
Proof.
  cbv zeta. rewrite !callback_all. cbn [sender snapshot].
  rewrite ?callback_all. cbn [snapshot].
  split; [ reflexivity | ].
  split; [ apply mirror_xyz | ].
  split; [ apply set_quat_quat | ].
  split; [ rewrite mirror_rpy;
           pose proof (displayRPY_scales getRPY s) as D;
           destruct (getRPY (rotation_of s)) as [[r p] y]; exact D | ].
  split; [ apply mirror_flags | ].
  split; [ apply mirror_flags | ].
  apply mirror_idempotent.
Qed.

(** X3: only a call at level CHANGE_UNITS can change the active angle unit
    or the limits held by the reconfigure server. *)
Theorem units_and_limits_written_only_by_units_edit s config level now :
  level <> CHANGE_UNITS ->
  angle_units_ (sender (callback s config level now)) = angle_units_ s /\
  reconf_server_ (sender (callback s config level now)) = reconf_server_ s.
Proof.
  intros H.
  destruct (callback_sender_shape s config level now)
    as [-> | [(q & v & _ & _ & _ & ->) | [E _]]].
  - split; reflexivity.
  - split; reflexivity.
  - contradiction.
Qed.

(** X4: the translation of the transform changes only at level CHANGE_XYZ,
    and its rotation only at levels CHANGE_RPY and CHANGE_QUAT. *)
Theorem components_written_only_by_their_edit s config level now :
  (level <> CHANGE_XYZ ->
   origin_of (sender (callback s config level now)) = origin_of s) /\
  (level <> CHANGE_RPY -> level <> CHANGE_QUAT ->
   rotation_of (sender (callback s config level now)) = rotation_of s).
Proof.
  destruct (callback_sender_shape s config level now)
    as [-> | [(q & v & Hl & Hq & Hv & ->) | [E ->]]].
  - split; reflexivity.
  - split.
    + intros H. rewrite (Hv H). reflexivity.
    + intros H3 H4. destruct Hl as [Hl | [Hl | Hl]]; try contradiction.
      rewrite (Hq Hl). reflexivity.
  - unfold origin_of, rotation_of. rewrite reconfRPYLimits_transform.
    split; reflexivity.
Qed.

(** X5: the calls at levels CHANGE_XYZ, CHANGE_RPY and CHANGE_QUAT stamp the
    transform with the clock they read; a call at any other level leaves
    the stamp as it was. *)
Theorem stamp_written_by_the_three_edits s config level now :
  (level = CHANGE_XYZ \/ level = CHANGE_RPY \/ level = CHANGE_QUAT ->
   StampedTransform.stamp_ (transform_ (sender (callback s config level now))) = now) /\
  (level <> CHANGE_XYZ -> level <> CHANGE_RPY -> level <> CHANGE_QUAT ->
   StampedTransform.stamp_ (transform_ (sender (callback s config level now)))
   = StampedTransform.stamp_ (transform_ s)).
Proof.
  destruct (callback_sender_shape s config level now)
    as [E | [(q & v & Hl & _ & _ & ->) | [E ->]]].
  - split.
    + intros [-> | [-> | ->]].
      * rewrite callback_xyz. reflexivity.
      * rewrite callback_rpy. destruct (edited_rpy s config) as [[R P] Y].
        reflexivity.
      * destruct (check_quat s (Config.quat config)) as [q msgs] eqn:Eq.
        rewrite (callback_quat setRPY getRPY s config now q msgs Eq). reflexivity.
    + intros _ _ _. rewrite E. reflexivity.
  - split; [ reflexivity | ].
    intros H2 H3 H4. destruct Hl as [Hl | [Hl | Hl]]; contradiction.
  - split.
    + intros [H | [H | H]]; rewrite E in H; discriminate H.
    + intros _ _ _. rewrite reconfRPYLimits_transform. reflexivity.
Qed.

End Frame.

(** ** Payloads outside the finite range *)

Lemma SFcompare_refl_not_nan (a : spec_float) :
  a <> S754_nan -> SFcompare a a = Some Eq.
Proof.
  destruct a as [sa | sa | | sa ma ea]; simpl; intros H.
  - reflexivity.
  - destruct sa; reflexivity.
  - contradiction H; reflexivity.
  - destruct sa; rewrite Z.compare_refl;
      change (PosDef.Pos.compare_cont Eq ma ma) with (Pos.compare_cont Eq ma ma);
      rewrite Pos.compare_cont_refl; reflexivity.
Qed.

Lemma is_nan_spec (a : float) : is_nan a = true -> Prim2SF a = S754_nan.
Proof.
  unfold is_nan. rewrite FloatAxioms.eqb_spec. unfold SFeqb. intros H.
  destruct (Prim2SF a) as [sa | sa | | sa ma ea] eqn:E; try reflexivity;
    rewrite SFcompare_refl_not_nan in H by discriminate; discriminate H.
Qed.

Lemma nan_compares_false (a b : float) :
  is_nan a = true ->
  (a =? b) = false /\ (a <? b) = false /\ (b <? a) = false.
Proof.
  intros H. apply is_nan_spec in H.
  rewrite FloatAxioms.eqb_spec, !FloatAxioms.ltb_spec, H.
  unfold SFeqb, SFltb.
  destruct (Prim2SF b) as [sb | sb | | sb mb eb]; repeat split.
Qed.

Lemma zero_or_nan_mul_zero (a : float) : zero_or_nan (a * 0) = true.
Proof.
  unfold zero_or_nan. rewrite FloatAxioms.mul_spec.
  change (Prim2SF 0) with (S754_zero false).
  destruct (Prim2SF a) as [sa | sa | | sa ma ea]; reflexivity.
Qed.

Lemma zero_or_nan_mul (a b : float) :
  zero_or_nan a = true -> zero_or_nan b = true -> zero_or_nan (a * b) = true.
Proof.
  unfold zero_or_nan. rewrite FloatAxioms.mul_spec.
  destruct (Prim2SF a) as [sa | sa | | sa ma ea]; try discriminate;
    destruct (Prim2SF b) as [sb | sb | | sb mb eb]; try discriminate;
    reflexivity.
Qed.

Lemma zero_or_nan_add (a b : float) :
  zero_or_nan a = true -> zero_or_nan b = true -> zero_or_nan (a + b) = true.
Proof.
  unfold zero_or_nan. rewrite FloatAxioms.add_spec.
  destruct (Prim2SF a) as [[ | ] | sa | | sa ma ea]; try discriminate;
    destruct (Prim2SF b) as [[ | ] | sb | | sb mb eb]; try discriminate;
    reflexivity.
Qed.

Lemma zero_or_nan_not_unit (q : Quaternion.t) :
  zero_or_nan (Quaternion.length2 q) = true -> is_unit q = false.
Proof.
  unfold zero_or_nan, is_unit. intros H.
  rewrite FloatAxioms.leb_spec. unfold SFleb.
  change (Prim2SF (1 - DBL_EPSILON))
    with (S754_finite false 9007199254740990 (-53)).
  destruct (Prim2SF (Quaternion.length2 q)) as [sa | sa | | sa ma ea];
    try discriminate H; reflexivity.
Qed.

Section Payloads.

Variable setRPY : float -> float -> float -> Quaternion.t.
Variable getRPY : Quaternion.t -> float * float * float.

Local Abbreviation callback := (reconfCallback setRPY getRPY).

(** X6: when the squared norm of a ChangeQuaternion payload is NaN, all
    three tests of the validation are false: the payload becomes the
    rotation as it is, and nothing is logged beyond the "Level" line. *)
Theorem nan_quaternion_applied_unchecked s config now :
  is_nan (Quaternion.length2 (Config.quat config)) = true ->
  let o := callback s config CHANGE_QUAT now in
  rotation_of (sender o) = Config.quat config /\
  Config.quat (snapshot o) = Config.quat config /\
  log o = [level_msg CHANGE_QUAT].
Proof.
  intros H o. subst o.
  assert (E : check_quat s (Config.quat config) = (Config.quat config, [])).
  { unfold check_quat.
    destruct (nan_compares_false _ 0 H) as (-> & _ & _).
    destruct (nan_compares_false _ (1 + DBL_EPSILON) H) as (_ & _ & ->).
    destruct (nan_compares_false _ (1 - DBL_EPSILON) H) as (_ & -> & _).
    reflexivity. }
  rewrite (callback_quat setRPY getRPY s config now _ _ E).
  cbn [sender snapshot log].
  split; [ reflexivity | ]. split; [ apply snapshot_quat_after_edit | reflexivity ].
Qed.

(** X7: when the squared norm of a ChangeQuaternion payload overflows to
    +infinity, the payload is taken for non-normalized: the warning is
    logged and every component is multiplied by 1/infinity = 0.  The
    rotation applied is therefore not a unit quaternion. *)
Theorem overflowing_quaternion_scaled_to_zero s config now :
  Quaternion.length2 (Config.quat config) = infinity ->
  let o := callback s config CHANGE_QUAT now in
  rotation_of (sender o)
  = Quaternion.mk (Config.qx config * 0) (Config.qy config * 0)
                  (Config.qz config * 0) (Config.qw config * 0) /\
  log o = [level_msg CHANGE_QUAT; normalized_msg] /\
  is_unit (rotation_of (sender o)) = false.
Proof.
  intros H o. subst o.
  assert (N : Quaternion.normalize (Config.quat config)
              = Quaternion.mk (Config.qx config * 0) (Config.qy config * 0)
                              (Config.qz config * 0) (Config.qw config * 0)).
  { unfold Quaternion.normalize, Quaternion.length. rewrite H. reflexivity. }
  assert (E : check_quat s (Config.quat config)
              = (Quaternion.normalize (Config.quat config), [normalized_msg])).
  { apply check_quat_off_unit; rewrite H; reflexivity. }
  rewrite (callback_quat setRPY getRPY s config now _ _ E).
  cbn [sender snapshot log]. unfold rotation_of.
  cbn [with_transform transform_ rebuilt StampedTransform.getRotation].
  rewrite N.
  split; [ reflexivity | ]. split; [ reflexivity | ].
  apply zero_or_nan_not_unit. unfold Quaternion.length2.
  cbn [Quaternion.x Quaternion.y Quaternion.z Quaternion.w].
  repeat apply zero_or_nan_add; apply zero_or_nan_mul;
    apply zero_or_nan_mul_zero.
Qed.

End Payloads.

(** ** Limits, units and read-back *)

Lemma rpy_limits_for s : rpy_limits (reconfRPYLimits s) = limits_for (angle_units_ s).
Proof. rewrite reconfRPYLimits_limits. reflexivity. Qed.

Lemma beside_rpy_set_rpy c rpy : beside_rpy (Config.set_rpy c rpy) = beside_rpy c.
Proof. destruct rpy as [[r p] y]. reflexivity. Qed.

Lemma set_rpy_twice c rpy rpy' :
  Config.set_rpy (Config.set_rpy c rpy) rpy' = Config.set_rpy c rpy'.
Proof. destruct rpy as [[r p] y], rpy' as [[r' p'] y']. reflexivity. Qed.

(** X8: [reconfRPYLimits] rewrites only the roll, pitch and yaw of the
    server's minimum and maximum: every other field of both, the transform
    and the unit are kept; the range depends on the unit alone (+-pi for
    USE_RADIANS, +-180 for any other value); and running it twice is the
    same as running it once. *)
Theorem reconfRPYLimits_touches_only_rpy_range s :
  beside_rpy (Server.getConfigMin (reconf_server_ (reconfRPYLimits s)))
    = beside_rpy (Server.getConfigMin (reconf_server_ s)) /\
  beside_rpy (Server.getConfigMax (reconf_server_ (reconfRPYLimits s)))
    = beside_rpy (Server.getConfigMax (reconf_server_ s)) /\
  rpy_limits (reconfRPYLimits s) = limits_for (angle_units_ s) /\
  transform_ (reconfRPYLimits s) = transform_ s /\
  angle_units_ (reconfRPYLimits s) = angle_units_ s /\
  reconfRPYLimits (reconfRPYLimits s) = reconfRPYLimits s.
Proof.
  split; [ | split; [ | split; [ | split; [ | split ] ] ] ].
  - unfold reconfRPYLimits.
    destruct (angle_units_ s =? USE_RADIANS)%Z; reflexivity.
  - unfold reconfRPYLimits.
    destruct (angle_units_ s =? USE_RADIANS)%Z; reflexivity.
  - apply rpy_limits_for.
  - apply reconfRPYLimits_transform.
  - apply reconfRPYLimits_angle_units.
  - unfold reconfRPYLimits at 1.
    rewrite reconfRPYLimits_angle_units, reconfRPYLimits_transform.
    unfold reconfRPYLimits.
    destruct (angle_units_ s =? USE_RADIANS)%Z;
      cbn [reconf_server_ Server.getConfigMin Server.getConfigMax];
      unfold set_rpy_limits; rewrite !set_rpy_twice; reflexivity.
Qed.

Section ReadBack.

Variable setRPY : float -> float -> float -> Quaternion.t.
Variable getRPY : Quaternion.t -> float * float * float.

Local Abbreviation callback := (reconfCallback setRPY getRPY).

(** X9: a unit switch to a value that is neither USE_RADIANS nor
    USE_DEGREES is carried out all the same: the value becomes the active
    unit and the published range is +-180, but roll/pitch/yaw are reported
    unconverted (in radians), and a later Euler edit is read without
    conversion too. *)
Theorem unit_outside_enum_mixes_degrees_and_radians s config now config' now' :
  Config.angle_units config <> USE_RADIANS ->
  Config.angle_units config <> USE_DEGREES ->
  Config.angle_units config <> angle_units_ s ->
  let o := callback s config CHANGE_UNITS now in
  angle_units_ (sender o) = Config.angle_units config /\
  rpy_limits (sender o) = ((-180, -180, -180), (180, 180, 180)) /\
  Config.rpy (snapshot o) = getRPY (rotation_of s) /\
  rotation_of (sender (callback (sender o) config' CHANGE_RPY now'))
  = setRPY (Config.roll config') (Config.pitch config') (Config.yaw config').
Proof.
  intros Hr Hd Hs o. subst o.
  assert (E : angle_units_ s <> Config.angle_units config)
    by (intros F; apply Hs; symmetry; exact F).
  rewrite (callback_units_changed setRPY getRPY s config now E). cbv zeta.
  cbn [sender snapshot].
  apply Z.eqb_neq in Hr, Hd.
  rewrite reconfRPYLimits_angle_units, reconfRPYLimits_limits.
  cbn [with_angle_units angle_units_]. rewrite Hr, Hd.
  split; [ reflexivity | ]. split; [ reflexivity | ].
  split; [ apply set_rpy_rpy | ].
  rewrite callback_rpy. unfold edited_rpy.
  rewrite reconfRPYLimits_angle_units. cbn [with_angle_units angle_units_].
  rewrite Hd. reflexivity.
Qed.

(** X10: what a translation edit or an Euler edit stores is what a
    following CHANGE_ALL call reports: after CHANGE_XYZ the x, y, z of the
    payload (with the rotation that was there), after CHANGE_RPY the
    quaternion composed from the payload (with the translation that was
    there). *)
Theorem edits_read_back_by_initialize s config config' now now' :
  let after_xyz := sender (callback s config CHANGE_XYZ now) in
  let after_rpy := sender (callback s config CHANGE_RPY now) in
  Config.xyz (snapshot (callback after_xyz config' CHANGE_ALL now'))
    = Config.xyz config /\
  Config.quat (snapshot (callback after_xyz config' CHANGE_ALL now'))
    = rotation_of s /\
  Config.quat (snapshot (callback after_rpy config' CHANGE_ALL now'))
    = Config.quat (snapshot (callback s config CHANGE_RPY now)) /\
  Config.xyz (snapshot (callback after_rpy config' CHANGE_ALL now'))
    = origin_of s.
Proof.
  cbv zeta. rewrite !callback_all. cbn [snapshot].
  rewrite !mirror_xyz, !set_quat_quat.
  rewrite callback_xyz, callback_rpy.
  destruct (edited_rpy s config) as [[R P] Y]. cbn [sender snapshot].
  rewrite set_quat_quat. repeat split.
Qed.

(** X11: after every ChangeQuaternion call, whatever the payload, the
    quaternion fields and the roll/pitch/yaw of the returned configuration
    are those a CHANGE_ALL call on the new object reports; its x, y, z are
    the ones passed in, not read from the transform. *)
Theorem quaternion_edit_snapshot_matches_initialize s config config' now now' :
  let o := callback s config CHANGE_QUAT now in
  let o' := callback (sender o) config' CHANGE_ALL now' in
  Config.quat (snapshot o) = Config.quat (snapshot o') /\
  Config.rpy (snapshot o) = Config.rpy (snapshot o') /\
  Config.quat (snapshot o) = rotation_of (sender o) /\
  Config.xyz (snapshot o) = Config.xyz config.
Proof.
  cbv zeta.
  destruct (check_quat s (Config.quat config)) as [q msgs] eqn:E.
  rewrite (callback_quat setRPY getRPY s config now q msgs E).
  cbn [sender snapshot]. rewrite callback_all. cbn [snapshot].
  rewrite snapshot_quat_after_edit, set_quat_quat, mirror_rpy.
  rewrite set_use_quaternion_rpy, set_rpy_rpy.
  repeat split.
  destruct (displayRPY getRPY (with_transform s (rebuilt s q (origin_of s) now)))
    as [[r p] y].
  reflexivity.
Qed.

End ReadBack.

(** ** Invariants of a run *)

Section RunInvariants.

Variable setRPY : float -> float -> float -> Quaternion.t.
Variable getRPY : Quaternion.t -> float * float * float.

Local Abbreviation callback := (reconfCallback setRPY getRPY).

Lemma callback_limits_match s config level now :
  limits_match_unit s ->
  limits_match_unit (sender (callback s config level now)).
Proof.
  intros H.
  destruct (callback_sender_shape setRPY getRPY s config level now)
    as [-> | [(q & v & _ & _ & _ & ->) | [_ ->]]].
  - exact H.
  - exact H.
  - unfold limits_match_unit. rewrite rpy_limits_for.
    rewrite reconfRPYLimits_angle_units. reflexivity.
Qed.

(** X12: if the published roll/pitch/yaw range is the one of the active
    unit, it still is after any sequence of callbacks and [send] calls;
    and after a unit switch that changes the unit it is, whatever the range
    was before. *)
Theorem published_range_follows_unit s calls :
  (limits_match_unit s -> limits_match_unit (run setRPY getRPY s calls)) /\
  (forall config now,
     Config.angle_units config <> angle_units_ s ->
     limits_match_unit (sender (callback s config CHANGE_UNITS now))).
Proof.
  split.
  - revert s. induction calls as [ | c calls IH]; intros s H; cbn [run fold_left].
    + exact H.
    + apply (IH (step setRPY getRPY s c)).
      destruct c as [config level now | time]; cbn [step].
      * apply callback_limits_match. exact H.
      * exact H.
  - intros config now H.
    assert (E : angle_units_ s <> Config.angle_units config)
      by (intros F; apply H; symmetry; exact F).
    rewrite (callback_units_changed setRPY getRPY s config now E). cbv zeta.
    cbn [sender]. unfold limits_match_unit. rewrite rpy_limits_for.
    rewrite reconfRPYLimits_angle_units. reflexivity.
Qed.

Lemma callback_unit_in_enum s config level now :
  unit_in_enum (angle_units_ s) ->
  unit_in_enum (Config.angle_units config) ->
  unit_in_enum (angle_units_ (sender (callback s config level now))).
Proof.
  intros Hs Hc.
  destruct (callback_sender_shape setRPY getRPY s config level now)
    as [-> | [(q & v & _ & _ & _ & ->) | [_ ->]]].
  - exact Hs.
  - exact Hs.
  - rewrite reconfRPYLimits_angle_units. exact Hc.
Qed.

(** X13: an active unit within {USE_RADIANS, USE_DEGREES} stays within
    that set through any sequence of callbacks and [send] calls whose
    reconfigure requests all carry a unit of that set. *)
Theorem active_unit_stays_in_enum s calls :
  unit_in_enum (angle_units_ s) ->
  Forall asks_unit_in_enum calls ->
  unit_in_enum (angle_units_ (run setRPY getRPY s calls)).
Proof.
  revert s. induction calls as [ | c calls IH]; intros s Hs Hc;
    cbn [run fold_left].
  - exact Hs.
  - inversion Hc as [ | c' calls' Hc1 Hc2 ]; subst.
    apply (IH (step setRPY getRPY s c)); [ | exact Hc2 ].
    destruct c as [config level now | time]; cbn [step].
    + apply callback_unit_in_enum; assumption.
    + exact Hs.
Qed.

End RunInvariants.

(** ** The entry point and its loop *)

Section MainProperties.

Variable setRPY : float -> float -> float -> Quaternion.t.
Variable getRPY : Quaternion.t -> float * float * float.
Variable reconf_server_0 : Server.t.
Variable atof : string -> float.
Variable Duration_of_sec : float -> Duration.
Variable time_plus : Time -> Duration -> Time.

Local Abbreviation startup' := (startup setRPY reconf_server_0 atof Duration_of_sec time_plus).
Local Abbreviation spin' := (spin setRPY getRPY time_plus).
Local Abbreviation turn' := (turn setRPY getRPY time_plus).
Local Abbreviation main' :=
  (main setRPY getRPY reconf_server_0 atof Duration_of_sec time_plus).

Lemma spinOnce_frames edits : forall s lg,
  frames (fst (fold_left
    (fun (acc : TransformSender * list LogEntry) (e : Config.t * Z * Time) =>
       let '(config, level, now) := e in
       let o := reconfCallback setRPY getRPY (fst acc) config level now in
       (sender o, snd acc ++ log o))
    edits (s, lg))) = frames s.
Proof.
  induction edits as [ | [[config level] now] edits IH]; intros s lg;
    cbn [fold_left].
  - reflexivity.
  - cbn [fst snd]. rewrite IH. apply callback_frames.
Qed.

Lemma spinOnce_keeps_frames s edits :
  frames (fst (spinOnce setRPY getRPY s edits)) = frames s.
Proof. unfold spinOnce. apply spinOnce_frames. Qed.

Lemma turn_spec sleeper frame child st t :
  published (turn' sleeper frame child st t)
  = published st
    ++ [StampedTransform.set_stamp (transform_ (spun_sender st))
                                   (time_plus (tick_now t) sleeper)] /\
  frames (spun_sender (turn' sleeper frame child st t)) = frames (spun_sender st).
Proof.
  unfold turn.
  pose proof (spinOnce_keeps_frames
                (send (spun_sender st) (time_plus (tick_now t) sleeper))
                (tick_edits t)) as H.
  destruct (spinOnce setRPY getRPY
              (send (spun_sender st) (time_plus (tick_now t) sleeper))
              (tick_edits t)) as [s2 lg].
  cbn [published spun_sender fst] in *. split; [ reflexivity | exact H ].
Qed.

Lemma set_stamp_has_frames s time :
  has_frames (fst (frames s)) (snd (frames s))
             (StampedTransform.set_stamp (transform_ s) time).
Proof. split; reflexivity. Qed.

Lemma spin_fold sleeper frame child ticks : forall st,
  let r := fold_left (turn' sleeper frame child) ticks st in
  frames (spun_sender r) = frames (spun_sender st) /\
  map StampedTransform.stamp_ (published r)
  = map StampedTransform.stamp_ (published st)
    ++ map (fun t => time_plus (tick_now t) sleeper) ticks /\
  (Forall (has_frames (fst (frames (spun_sender st))) (snd (frames (spun_sender st))))
          (published st) ->
   Forall (has_frames (fst (frames (spun_sender st))) (snd (frames (spun_sender st))))
          (published r)).
Proof.
  induction ticks as [ | t ticks IH]; intros st; cbn [fold_left map].
  - rewrite app_nil_r. repeat split. intros H; exact H.
  - destruct (turn_spec sleeper frame child st t) as [Hp Hf].
    destruct (IH (turn' sleeper frame child st t)) as (IH1 & IH2 & IH3).
    cbv zeta. rewrite IH1, IH2, Hf, Hp in *.
    split; [ reflexivity | ]. split.
    + rewrite map_app, <- app_assoc. reflexivity.
    + intros H. apply IH3. apply Forall_app. split; [ exact H | ].
      constructor; [ apply set_stamp_has_frames | constructor ].
Qed.

(** X14: with an argument count other than 10 or 11, [main] prints the
    usage text, logs one error, returns -1, and publishes nothing. *)
Theorem main_rejects_other_argument_counts argv ticks :
  List.length argv <> 10%nat -> List.length argv <> 11%nat ->
  main' argv ticks = ((-1)%Z, usage, [wrong_arguments_msg], []).
Proof.
  intros H10 H11. unfold main.
  destruct argv as [ | a0 [ | a1 [ | a2 [ | a3 [ | a4 [ | a5 [ | a6 [ | a7 [ | a8
    [ | a9 [ | a10 [ | a11 rest ]]]]]]]]]]]]; try reflexivity;
    exfalso; [ apply H10 | apply H11 ]; reflexivity.
Qed.

(** X15: the transforms [main] publishes, in either argument form, are one
    per turn of the loop; each carries the two frame names of the command
    line and the stamp [now + sleeper], where sleeper is the period
    argument divided by 1000; no reconfigure request delivered in between
    alters the names. *)
Theorem main_publishes_future_dated_transforms
    a0 a1 a2 a3 a4 a5 a6 a7 a8 a9 a10 ticks :
  let by_quat := main' [a0; a1; a2; a3; a4; a5; a6; a7; a8; a9; a10] ticks in
  let by_ypr := main' [a0; a1; a2; a3; a4; a5; a6; a7; a8; a9] ticks in
  fst (fst (fst by_quat)) = 0%Z /\
  map StampedTransform.stamp_ (snd by_quat)
  = map (fun t => time_plus (tick_now t) (Duration_of_sec (atof a10 / 1000))) ticks /\
  Forall (has_frames a8 a9) (snd by_quat) /\
  fst (fst (fst by_ypr)) = 0%Z /\
  map StampedTransform.stamp_ (snd by_ypr)
  = map (fun t => time_plus (tick_now t) (Duration_of_sec (atof a9 / 1000))) ticks /\
  Forall (has_frames a7 a8) (snd by_ypr).
Proof.
  cbv zeta. unfold main, startup, spin. cbn [fst snd].
  split; [ reflexivity | ].
  match goal with
  | |- context [fold_left (turn' ?sl ?f ?c) ticks ?st] =>
      destruct (spin_fold sl f c ticks st) as (_ & H2 & H3)
  end.
  split; [ exact H2 | ].
  split; [ apply H3; constructor | ].
  split; [ reflexivity | ].
  match goal with
  | |- context [fold_left (turn' ?sl a7 ?c) ticks ?st] =>
      destruct (spin_fold sl a7 c ticks st) as (_ & H2' & H3')
  end.
  split; [ exact H2' | apply H3'; constructor ].
Qed.

Lemma spin_fold_prefix sleeper frame child ticks : forall st,
  exists more,
    published (fold_left (turn' sleeper frame child) ticks st)
    = published st ++ more.
Proof.
  induction ticks as [ | t ticks IH]; intros st; cbn [fold_left].
  - exists []. rewrite app_nil_r. reflexivity.
  - destruct (IH (turn' sleeper frame child st t)) as [more Hm].
    destruct (turn_spec sleeper frame child st t) as [Hp _].
    rewrite Hm, Hp, <- app_assoc. eexists. reflexivity.
Qed.

Lemma map_length_eq {A B C : Type} (f : A -> C) (g : B -> C) l l' :
  map f l = map g l' -> List.length l = List.length l'.
Proof.
  intros H. apply (f_equal (@List.length C)) in H.
  rewrite !length_map in H. exact H.
Qed.

(** X16: when the two frame names of the command line are the same string,
    in the eleven-argument form as in the ten-argument form, [main] logs
    the fatal line first and carries on: it returns 0 after publishing one
    transform per turn of the loop, each with its child frame equal to its
    parent frame. *)
Theorem main_continues_with_identical_frames
    a0 a1 a2 a3 a4 a5 a6 a7 a8 a10 ticks :
  let r := main' [a0; a1; a2; a3; a4; a5; a6; a7; a8; a8; a10] ticks in
  let r' := main' [a0; a1; a2; a3; a4; a5; a6; a7; a7; a10] ticks in
  (fst (fst (fst r)) = 0%Z /\
   hd_error (snd (fst r)) = Some (same_frames_msg a8 a8) /\
   List.length (snd r) = List.length ticks /\
   Forall (fun tr => StampedTransform.frame_id_ tr
                     = StampedTransform.child_frame_id_ tr) (snd r)) /\
  (fst (fst (fst r')) = 0%Z /\
   hd_error (snd (fst r')) = Some (same_frames_msg a7 a7) /\
   List.length (snd r') = List.length ticks /\
   Forall (fun tr => StampedTransform.frame_id_ tr
                     = StampedTransform.child_frame_id_ tr) (snd r')).
Proof.
  cbv zeta. unfold main, startup, spin. rewrite !String.eqb_refl.
  cbn [fst snd app hd_error].
  split.
  - split; [ reflexivity | ]. split; [ reflexivity | ].
    match goal with
    | |- context [fold_left (turn' ?sl a8 ?c) ticks ?st] =>
        destruct (spin_fold sl a8 c ticks st) as (_ & H2 & H3)
    end.
    split.
    + apply map_length_eq in H2. exact H2.
    + specialize (H3 (Forall_nil _)). cbn [frames spun_sender transform_
        TransformSender_quat StampedTransform.frame_id_
        StampedTransform.child_frame_id_ fst snd] in H3.
      revert H3. apply Forall_impl. intros tr [Hf Hc]. congruence.
  - split; [ reflexivity | ]. split; [ reflexivity | ].
    match goal with
    | |- context [fold_left (turn' ?sl a7 ?c) ticks ?st] =>
        destruct (spin_fold sl a7 c ticks st) as (_ & H2 & H3)
    end.
    split.
    + apply map_length_eq in H2. exact H2.
    + specialize (H3 (Forall_nil _)). cbn [frames spun_sender transform_
        TransformSender_ypr StampedTransform.frame_id_
        StampedTransform.child_frame_id_ fst snd] in H3.
      revert H3. apply Forall_impl. intros tr [Hf Hc]. congruence.
Qed.

(** X17: the first transform [main] publishes is built from the command
    line alone.  In the ten-argument form the fourth, fifth and sixth
    numbers are yaw, pitch and roll, handed to [setRPY] as roll, pitch, yaw;
    in the eleven-argument form the four numbers are stored as the rotation
    unchanged, with no check of their norm. *)
Theorem main_first_transform_from_command_line
    a0 a1 a2 a3 a4 a5 a6 a7 a8 a9 a10 t ticks :
  hd_error (snd (main' [a0; a1; a2; a3; a4; a5; a6; a7; a8; a9] (t :: ticks)))
  = Some (StampedTransform.mk
            (setRPY (atof a6) (atof a5) (atof a4))
            (Vector3.mk (atof a1) (atof a2) (atof a3))
            (time_plus (tick_now t) (Duration_of_sec (atof a9 / 1000)))
            a7 a8) /\
  hd_error (snd (main' [a0; a1; a2; a3; a4; a5; a6; a7; a8; a9; a10] (t :: ticks)))
  = Some (StampedTransform.mk
            (Quaternion.mk (atof a4) (atof a5) (atof a6) (atof a7))
            (Vector3.mk (atof a1) (atof a2) (atof a3))
            (time_plus (tick_now t) (Duration_of_sec (atof a10 / 1000)))
            a8 a9).
Proof.
  unfold main, startup, spin. cbn [fst snd fold_left].
  split.
  - match goal with
    | |- context [fold_left (turn' ?sl ?f ?c) ticks ?st] =>
        destruct (spin_fold_prefix sl f c ticks st) as [more Hm];
        destruct (turn_spec sl f c
                    {| spun_sender :=
                         TransformSender_ypr setRPY reconf_server_0
                           (atof a1) (atof a2) (atof a3)
                           (atof a4) (atof a5) (atof a6)
                           (time_plus 0%Z sl) f c;
                       published := []; spun_log := [] |} t) as [Hp _]
    end.
    rewrite Hm, Hp. reflexivity.
  - match goal with
    | |- context [fold_left (turn' ?sl ?f ?c) ticks ?st] =>
        destruct (spin_fold_prefix sl f c ticks st) as [more Hm];
        destruct (turn_spec sl f c
                    {| spun_sender :=
                         TransformSender_quat reconf_server_0
                           (atof a1) (atof a2) (atof a3)
                           (atof a4) (atof a5) (atof a6) (atof a7)
                           (time_plus 0%Z sl) f c;
                       published := []; spun_log := [] |} t) as [Hp _]
    end.
    rewrite Hm, Hp. reflexivity.
Qed.

End MainProperties.

(** ** The further properties at concrete inputs *)

Local Abbreviation run_main :=
  (main Ref.setRPY Ref.getRPY Ref.reconf_server_0
        RefMain.atof RefMain.Duration_of_sec RefMain.time_plus).

Lemma unlisted_level_changes_nothing_witness :
  Z.lor CHANGE_XYZ CHANGE_RPY = 3%Z /\
  sender (run_callback Example.identity_sender (Example.xyz_edit 4 5 6)
                       (Z.lor CHANGE_XYZ CHANGE_RPY) 200%Z)
  = Example.identity_sender.
Proof.
  split; [ reflexivity | ].
  exact (proj1 (unlisted_level_changes_nothing Ref.setRPY Ref.getRPY
                  Example.identity_sender (Example.xyz_edit 4 5 6)
                  (Z.lor CHANGE_XYZ CHANGE_RPY) 200%Z
                  ltac:(discriminate) ltac:(discriminate) ltac:(discriminate)
                  ltac:(discriminate) ltac:(discriminate))).
Defined.

Lemma units_and_limits_written_only_by_units_edit_witness :
  CHANGE_QUAT <> CHANGE_UNITS /\
  angle_units_
    (sender (run_callback Example.identity_sender (Example.quat_edit 1 1 0 0)
                          CHANGE_QUAT 200%Z)) = USE_RADIANS.
Proof.
  split; [ discriminate | ].
  exact (proj1 (units_and_limits_written_only_by_units_edit Ref.setRPY Ref.getRPY
                  Example.identity_sender (Example.quat_edit 1 1 0 0)
                  CHANGE_QUAT 200%Z ltac:(discriminate))).
Defined.

Lemma components_written_only_by_their_edit_witness :
  origin_of
    (sender (run_callback Example.identity_sender (Example.quat_edit 1 1 0 0)
                          CHANGE_QUAT 200%Z))
  = Vector3.mk 1 2 3 /\
  rotation_of
    (sender (run_callback Example.identity_sender (Example.xyz_edit 4 5 6)
                          CHANGE_XYZ 200%Z))
  = Quaternion.mk 0 0 0 1.
Proof.
  split.
  - exact (proj1 (components_written_only_by_their_edit Ref.setRPY Ref.getRPY
                    Example.identity_sender (Example.quat_edit 1 1 0 0)
                    CHANGE_QUAT 200%Z) ltac:(discriminate)).
  - exact (proj2 (components_written_only_by_their_edit Ref.setRPY Ref.getRPY
                    Example.identity_sender (Example.xyz_edit 4 5 6)
                    CHANGE_XYZ 200%Z) ltac:(discriminate) ltac:(discriminate)).
Defined.

Lemma stamp_written_by_the_three_edits_witness :
  StampedTransform.stamp_
    (transform_ (sender (run_callback Example.identity_sender
                           (Example.xyz_edit 4 5 6) CHANGE_XYZ 200%Z))) = 200%Z /\
  StampedTransform.stamp_
    (transform_ (sender (run_callback Example.identity_sender
                           (Example.units_edit USE_DEGREES) CHANGE_UNITS 200%Z)))
  = 100%Z.
Proof.
  split.
  - exact (proj1 (stamp_written_by_the_three_edits Ref.setRPY Ref.getRPY
                    Example.identity_sender (Example.xyz_edit 4 5 6)
                    CHANGE_XYZ 200%Z) (or_introl eq_refl)).
  - exact (proj2 (stamp_written_by_the_three_edits Ref.setRPY Ref.getRPY
                    Example.identity_sender (Example.units_edit USE_DEGREES)
                    CHANGE_UNITS 200%Z)
                 ltac:(discriminate) ltac:(discriminate) ltac:(discriminate)).
Defined.

Lemma nan_quaternion_applied_unchecked_witness :
  is_nan (Quaternion.length2 (Config.quat (Example.quat_edit nan 0 0 1))) = true /\
  rotation_of
    (sender (run_callback Example.identity_sender (Example.quat_edit nan 0 0 1)
                          CHANGE_QUAT 200%Z))
  = Quaternion.mk nan 0 0 1.
Proof.
  split; [ reflexivity | ].
  exact (proj1 (nan_quaternion_applied_unchecked Ref.setRPY Ref.getRPY
                  Example.identity_sender (Example.quat_edit nan 0 0 1) 200%Z
                  eq_refl)).
Defined.

Lemma overflowing_quaternion_scaled_to_zero_witness :
  Quaternion.length2 (Config.quat (Example.quat_edit 1e200 0 0 1)) = infinity /\
  rotation_of
    (sender (run_callback Example.identity_sender (Example.quat_edit 1e200 0 0 1)
                          CHANGE_QUAT 200%Z))
  = Quaternion.mk 0 0 0 0.
Proof.
  split; [ reflexivity | ].
  exact (proj1 (overflowing_quaternion_scaled_to_zero Ref.setRPY Ref.getRPY
                  Example.identity_sender (Example.quat_edit 1e200 0 0 1) 200%Z
                  eq_refl)).
Defined.

Lemma unit_outside_enum_mixes_degrees_and_radians_witness :
  Config.angle_units (Example.units_edit 2) <> USE_RADIANS /\
  Config.angle_units (Example.units_edit 2) <> USE_DEGREES /\
  Config.angle_units (Example.units_edit 2)
    <> angle_units_ Example.quarter_turn_sender /\
  rpy_limits
    (sender (run_callback Example.quarter_turn_sender (Example.units_edit 2)
                          CHANGE_UNITS 200%Z))
  = ((-180, -180, -180), (180, 180, 180)) /\
  Config.yaw
    (snapshot (run_callback Example.quarter_turn_sender (Example.units_edit 2)
                            CHANGE_UNITS 200%Z))
  = M_PI / 2.
Proof.
  split; [ discriminate | ]. split; [ discriminate | ].
  split; [ discriminate | ].
  destruct (unit_outside_enum_mixes_degrees_and_radians Ref.setRPY Ref.getRPY
              Example.quarter_turn_sender (Example.units_edit 2) 200%Z
              Ref.config0 300%Z
              ltac:(discriminate) ltac:(discriminate) ltac:(discriminate))
    as (_ & Hl & Hr & _).
  split; [ exact Hl | ].
  apply (f_equal (fun rpy : float * float * float => snd rpy)) in Hr.
  exact Hr.
Defined.

Lemma published_range_follows_unit_witness :
  limits_match_unit Example.identity_sender /\
  limits_match_unit
    (run Ref.setRPY Ref.getRPY Example.identity_sender
         [Reconf (Example.units_edit USE_DEGREES) CHANGE_UNITS 200%Z;
          Send 300%Z;
          Reconf (Example.quat_edit 1 1 0 0) CHANGE_QUAT 400%Z]).
Proof.
  assert (H : limits_match_unit Example.identity_sender) by reflexivity.
  split; [ exact H | ].
  exact (proj1 (published_range_follows_unit Ref.setRPY Ref.getRPY
                  Example.identity_sender _) H).
Defined.

Lemma active_unit_stays_in_enum_witness :
  unit_in_enum (angle_units_ Example.identity_sender) /\
  unit_in_enum
    (angle_units_
       (run Ref.setRPY Ref.getRPY Example.identity_sender
            [Reconf (Example.units_edit USE_DEGREES) CHANGE_UNITS 200%Z;
             Send 300%Z])).
Proof.
  assert (H : unit_in_enum (angle_units_ Example.identity_sender))
    by (left; reflexivity).
  split; [ exact H | ].
  apply (active_unit_stays_in_enum Ref.setRPY Ref.getRPY
           Example.identity_sender _ H).
  apply Forall_cons; [ right; reflexivity | ].
  apply Forall_cons; [ exact I | apply Forall_nil ].
Defined.

Lemma main_rejects_other_argument_counts_witness :
  List.length ["static_transform_publisher"; "1"; "2"; "3"]%string <> 10%nat /\
  fst (fst (fst (run_main ["static_transform_publisher"; "1"; "2"; "3"]%string
                          RefMain.two_turns))) = (-1)%Z.
Proof.
  split; [ discriminate | ].
  rewrite (main_rejects_other_argument_counts Ref.setRPY Ref.getRPY
             Ref.reconf_server_0 RefMain.atof RefMain.Duration_of_sec
             RefMain.time_plus
             ["static_transform_publisher"; "1"; "2"; "3"]%string
             RefMain.two_turns ltac:(discriminate) ltac:(discriminate)).
  reflexivity.
Defined.
